(** * RedshiftClusterMonitoring: alarms, annotations and dashboard layouts

    A shallow embedding of
    [lib/monitoring/aws-redshift/RedshiftClusterMonitoring.ts].

    The class builds, at construction time, one alarm per entry of two
    threshold records (disk usage, CPU usage), collects the alarms'
    annotations in [usageAnnotations], hands the alarms to an optional
    consumer, and afterwards serves two fixed widget layouts
    ([summaryWidgets], [widgets]).

    Collaborators that live outside this file (the alarm factory, the metric
    factory, the naming strategy, the dashboard grid constants) are taken as
    parameters.  The constructor mutates [this], calls collaborators that
    carry state of their own and can throw, so it is written in a small
    state-and-exception monad; the layouts only read [this] and are plain
    functions. *)

From Stdlib Require Import List String Ascii ZArith NArith Bool Lia Permutation.
Import ListNotations.
Open Scope string_scope.
Open Scope list_scope.

(** ** JavaScript records: [Record<string, V>]

    A plain object used as a map.  The representation is the list of its own
    enumerable string-keyed properties in the order in which [for ... in]
    visits them: array-index keys first, in ascending numeric order, then
    every other key in the order of its first creation.  A key occurs once.
    The prototype is [Object.prototype], which has no enumerable property, so
    [for ... in] visits the own properties and nothing else. *)
Module JsRecord.

Definition t (V : Type) : Type := list (string * V).

Definition is_digit (c : ascii) : bool :=
  ((48 <=? N_of_ascii c) && (N_of_ascii c <=? 57))%N.

Fixpoint parse_digits (s : string) (acc : N) : option N :=
  match s with
  | EmptyString => Some acc
  | String c s' =>
      if is_digit c
      then parse_digits s' (10 * acc + (N_of_ascii c - 48))%N
      else None
  end.

(** An array index is a canonical decimal numeral below [2^32 - 1]. *)
Definition array_index (k : string) : option N :=
  match k with
  | EmptyString => None
  | String c rest =>
      if (N_of_ascii c =? 48)%N
      then match rest with EmptyString => Some 0%N | _ => None end
      else match parse_digits k 0%N with
           | Some n => if (n <=? 4294967294)%N then Some n else None
           | None => None
           end
  end.

Section Ops.
Context {V : Type}.

Definition empty : t V := [].

Definition keys (r : t V) : list string := map fst r.


  (** [r[k]] *)
Fixpoint get (r : t V) (k : string) : option V :=
    match r with
    | [] => None
    | (k', v) :: r' => if String.eqb k k' then Some v else get r' k
    end.

Definition has (r : t V) (k : string) : bool :=
    match get r k with Some _ => true | None => false end.

  (** Overwrite the value of an existing key; its place is kept. *)
Fixpoint replace (k : string) (v : V) (r : t V) : t V :=
    match r with
    | [] => []
    | (k', v') :: r' =>
        if String.eqb k k' then (k', v) :: r' else (k', v') :: replace k v r'
    end.

  (** Create an array-index key: it goes after the smaller index keys and
      before everything else. *)
Fixpoint insert_index (n : N) (k : string) (v : V) (r : t V) : t V :=
    match r with
    | [] => [(k, v)]
    | (k', v') :: r' =>
        match array_index k' with
        | Some n' =>
            if (n' <? n)%N
            then (k', v') :: insert_index n k v r'
            else (k, v) :: r
        | None => (k, v) :: r
        end
    end.

  (** [CreateDataProperty(r, k, v)]: an own data property [k] with value [v]
      is defined.  An existing key keeps its place and takes the new value;
      a new key is created.  No key is special here: [__proto__] too becomes
      an own property.  (An assignment [r[k] = v] and a literal [{k: v}] do
      the same for every key but [__proto__], which they take for the
      prototype of the object and not for a property.) *)
Definition set (k : string) (v : V) (r : t V) : t V :=
    if has r k then replace k v r
    else match array_index k with
         | Some n => insert_index n k v r
         | None => r ++ [(k, v)]
         end.

  (** [Object.fromEntries(es)]: a fresh plain object on which the entries
      are defined one after the other with [CreateDataProperty]; it is also
      the object [JSON.parse] builds from an object text with these members.
      A key that comes twice is one property, at the place of its first
      definition, with the value defined last. *)
Definition of_entries (es : list (string * V)) : t V :=
    fold_left (fun r e => set (fst e) (snd e) r) es empty.

  (** The enumeration order: index keys first, in ascending order (from [lo]
    on), and no index key after a key of another kind. *)
Fixpoint ordered_keys (lo : N) (ks : list string) : bool :=
  match ks with
  | [] => true
  | k :: ks' =>
      match array_index k with
      | Some n => (lo <=? n)%N && ordered_keys n ks'
      | None =>
          forallb (fun k' => match array_index k' with
                             | Some _ => false
                             | None => true
                             end) ks'
      end
  end.

Definition ordered (r : t V) : bool := ordered_keys 0 (keys r).

(** The keys that are no array index, in enumeration order. *)
Definition other_keys (r : t V) : list string :=
  filter (fun k => match array_index k with Some _ => false | None => true end)
    (keys r).

(** A key occurs once. *)
Definition wf (r : t V) : Prop := NoDup (keys r).


(** The keys of [ks] that are not in [seen], each at its first occurrence. *)
Fixpoint first_occurrences (seen ks : list string) : list string :=
  match ks with
  | [] => []
  | k :: ks' =>
      if existsb (String.eqb k) seen
      then first_occurrences seen ks'
      else k :: first_occurrences (seen ++ [k]) ks'
  end.

Definition is_other_key (k : string) : bool :=
  match array_index k with Some _ => false | None => true end.

End Ops.

Arguments empty {V}.

End JsRecord.

(** ** Data passed between the class and its collaborators *)

(** A JavaScript [number].  The class never computes with numbers, it only
    passes them on, so any carrier with decidable equality does. *)
Definition number : Type := Z.

Definition Error : Type := string.

(** [HorizontalAnnotation] of aws-cdk-lib: a threshold line on a graph. *)
Record HorizontalAnnotation : Type := mkAnnotation {
  value : number;
  label : option string
}.

(** Modelled from the spec: [UsageThreshold] is declared in [../../common],
    which is not part of the sources at hand; the spec describes it as a
    numeric limit plus a comparison/evaluation policy that the class treats
    as opaque. *)
Record UsageThreshold : Type := mkThreshold {
  limit : number;
  comparisonPolicy : string
}.

(** Modelled from the spec: [AlarmWithAnnotation] is declared in
    [../../common]; the spec gives an alarm an identity, the threshold used
    and one annotation.  The class only reads [annotation]. *)
Record AlarmWithAnnotation : Type := mkAlarm {
  alarmName : string;
  alarmThreshold : UsageThreshold;
  annotation : HorizontalAnnotation
}.

(** The unit families the four axis kinds stand for. *)
Inductive UnitFamily : Type := Percentage | Count | TimeMillis | Boolean.

(** Modelled from the spec: [MetricWithAlarmSupport] is declared in
    [../../common]; the spec calls it a semantically-typed metric handle
    with a known unit. *)
Record MetricWithAlarmSupport : Type := mkMetric {
  metricName : string;
  unitFamily : UnitFamily
}.

(** Modelled from the spec: the four axis constants of [../../common] that
    the class imports, each with the value range the spec gives it
    (percentage 0-100, count from zero, milliseconds from zero, boolean
    0/1). *)
Inductive YAxisProps : Type :=
| PercentageAxisFromZeroToHundred
| CountAxisFromZero
| TimeAxisMillisFromZero
| BooleanAxisFromZeroToOne.


(** The metrics [RedshiftClusterMetricFactory] hands out, one field per
    method the constructor calls. *)
Record RedshiftClusterMetricFactory : Type := mkMetricFactory {
  metricTotalConnectionCount : MetricWithAlarmSupport;
  metricAverageDiskSpaceUsageInPercent : MetricWithAlarmSupport;
  metricAverageCpuUsageInPercent : MetricWithAlarmSupport;
  metricShortQueryDurationP90InMillis : MetricWithAlarmSupport;
  metricMediumQueryDurationP90InMillis : MetricWithAlarmSupport;
  metricLongQueryDurationP90InMillis : MetricWithAlarmSupport;
  metricReadLatencyP90InMillis : MetricWithAlarmSupport;
  metricWriteLatencyP90InMillis : MetricWithAlarmSupport;
  metricMaintenanceModeEnabled : MetricWithAlarmSupport
}.


(** [IAlarmConsumer]: the optional [useCreatedAlarms] hook.  [consume] may
    throw. *)
Record IAlarmConsumer : Type := mkConsumer {
  consume : list AlarmWithAnnotation -> Error + unit
}.

(** ** Widgets *)

Module GraphWidgetProps.
Record t : Type := mk {
  width : number;
  height : number;
  title : string;
  left : list MetricWithAlarmSupport;
  leftYAxis : YAxisProps;
  leftAnnotations : option (list HorizontalAnnotation)
}.
End GraphWidgetProps.

Module MonitoringHeaderWidgetProps.
Record t : Type := mk {
  family : string;
  title : string;
  goToLinkUrl : option string
}.
End MonitoringHeaderWidgetProps.

Inductive IWidget : Type :=
| GraphWidget (props : GraphWidgetProps.t)
| MonitoringHeaderWidget (props : MonitoringHeaderWidgetProps.t).

(** What a widget draws: the annotation lines, the metrics, the axis. *)
Definition widgetAnnotations (w : IWidget) : list HorizontalAnnotation :=
  match w with
  | GraphWidget p =>
      match GraphWidgetProps.leftAnnotations p with
      | Some l => l
      | None => []
      end
  | MonitoringHeaderWidget _ => []
  end.

Definition widgetMetrics (w : IWidget) : list MetricWithAlarmSupport :=
  match w with
  | GraphWidget p => GraphWidgetProps.left p
  | MonitoringHeaderWidget _ => []
  end.

Definition widgetAxis (w : IWidget) : option YAxisProps :=
  match w with
  | GraphWidget p => Some (GraphWidgetProps.leftYAxis p)
  | MonitoringHeaderWidget _ => None
  end.

Definition widgetWidth (w : IWidget) : option number :=
  match w with
  | GraphWidget p => Some (GraphWidgetProps.width p)
  | MonitoringHeaderWidget _ => None
  end.

Definition widgetTitle (w : IWidget) : string :=
  match w with
  | GraphWidget p => GraphWidgetProps.title p
  | MonitoringHeaderWidget p => MonitoringHeaderWidgetProps.title p
  end.


(** ** The class *)

Section RedshiftClusterMonitoring.

(** The state of the [UsageAlarmFactory] object (with the alarm factory and
    the scope behind it): whatever its methods read and write. *)
Context {UsageAlarmFactory : Type}.

(** The two factory methods the constructor calls.  Each may throw and may
    change the factory. *)
Definition AlarmBuilder : Type :=
  UsageAlarmFactory -> MetricWithAlarmSupport -> UsageThreshold -> string ->
  (Error + AlarmWithAnnotation) * UsageAlarmFactory.

Variable addMaxDiskUsagePercentAlarm : AlarmBuilder.
Variable addMaxCpuUsagePercentAlarm : AlarmBuilder.

(** Grid constants of [../../common]. *)
Variables ThirdWidth QuarterWidth HalfQuarterWidth : number.
Variables DefaultSummaryWidgetHeight DefaultGraphWidgetHeight : number.

Record RedshiftClusterMonitoringProps : Type := mkProps {
  clusterIdentifier : string;
  addDiskSpaceUsageAlarm : option (JsRecord.t UsageThreshold);
  addCpuUsageAlarm : option (JsRecord.t UsageThreshold);
  useCreatedAlarms : option IAlarmConsumer
}.

(** What the scope, the naming strategy and the metric factory answer. *)
Variable resolveHumanReadableName : RedshiftClusterMonitoringProps -> string.
Variable resolveAlarmFriendlyName : RedshiftClusterMonitoringProps -> string.
Variable getRedshiftClusterUrl : string -> option string.
Variable createAlarmFactory : string -> UsageAlarmFactory.
Variable newRedshiftClusterMetricFactory :
  RedshiftClusterMonitoringProps -> RedshiftClusterMetricFactory.

(** The fields of the object; [alarms] is the field of the base class
    [Monitoring]. *)
Record RedshiftClusterMonitoring : Type := mkThis {
  alarms : list AlarmWithAnnotation;
  title : string;
  url : option string;
  usageAlarmFactory : UsageAlarmFactory;
  usageAnnotations : list HorizontalAnnotation;
  connectionsMetric : MetricWithAlarmSupport;
  diskSpaceUsageMetric : MetricWithAlarmSupport;
  cpuUsageMetric : MetricWithAlarmSupport;
  shortQueryDurationMetric : MetricWithAlarmSupport;
  mediumQueryDurationMetric : MetricWithAlarmSupport;
  longQueryDurationMetric : MetricWithAlarmSupport;
  readLatencyMetric : MetricWithAlarmSupport;
  writeLatencyMetric : MetricWithAlarmSupport;
  maintenanceModeMetric : MetricWithAlarmSupport
}.

Definition set_alarms (x : list AlarmWithAnnotation)
    (o : RedshiftClusterMonitoring) : RedshiftClusterMonitoring :=
  mkThis x (title o) (url o) (usageAlarmFactory o) (usageAnnotations o)
    (connectionsMetric o) (diskSpaceUsageMetric o) (cpuUsageMetric o)
    (shortQueryDurationMetric o) (mediumQueryDurationMetric o)
    (longQueryDurationMetric o) (readLatencyMetric o)
    (writeLatencyMetric o) (maintenanceModeMetric o).

Definition set_usageAlarmFactory (x : UsageAlarmFactory)
    (o : RedshiftClusterMonitoring) : RedshiftClusterMonitoring :=
  mkThis (alarms o) (title o) (url o) x (usageAnnotations o)
    (connectionsMetric o) (diskSpaceUsageMetric o) (cpuUsageMetric o)
    (shortQueryDurationMetric o) (mediumQueryDurationMetric o)
    (longQueryDurationMetric o) (readLatencyMetric o)
    (writeLatencyMetric o) (maintenanceModeMetric o).

Definition set_usageAnnotations (x : list HorizontalAnnotation)
    (o : RedshiftClusterMonitoring) : RedshiftClusterMonitoring :=
  mkThis (alarms o) (title o) (url o) (usageAlarmFactory o) x
    (connectionsMetric o) (diskSpaceUsageMetric o) (cpuUsageMetric o)
    (shortQueryDurationMetric o) (mediumQueryDurationMetric o)
    (longQueryDurationMetric o) (readLatencyMetric o)
    (writeLatencyMetric o) (maintenanceModeMetric o).

(** *** Construction: state, exceptions and the calls that leave the class *)

(** A call to a collaborator, with its arguments. *)
Inductive Call : Type :=
| CallAddMaxDiskUsagePercentAlarm
    (metric : MetricWithAlarmSupport) (alarmProps : UsageThreshold)
    (disambiguator : string)
| CallAddMaxCpuUsagePercentAlarm
    (metric : MetricWithAlarmSupport) (alarmProps : UsageThreshold)
    (disambiguator : string)
| CallConsume (created : list AlarmWithAnnotation).

(** The object under construction and the calls made so far, oldest
    first. *)
Record Heap : Type := mkHeap {
  this : RedshiftClusterMonitoring;
  calls : list Call
}.

(** A computation either returns or throws; the heap it leaves behind is
    kept in both cases. *)
Definition M (A : Type) : Type := Heap -> (Error + A) * Heap.

Definition ret {A} (a : A) : M A := fun h => (inr a, h).

Definition throw {A} (e : Error) : M A := fun h => (inl e, h).

Definition bind {A B} (m : M A) (k : A -> M B) : M B :=
  fun h =>
    match m h with
    | (inr a, h') => k a h'
    | (inl e, h') => (inl e, h')
    end.

Notation "x <- m ;; k" := (bind m (fun x => k))
  (at level 61, m at next level, right associativity).
Notation "m ;;; k" := (bind m (fun _ => k))
  (at level 61, right associativity).

Definition read {A} (f : RedshiftClusterMonitoring -> A) : M A :=
  fun h => (inr (f (this h)), h).

Definition write (f : RedshiftClusterMonitoring -> RedshiftClusterMonitoring)
    : M unit :=
  fun h => (inr tt, mkHeap (f (this h)) (calls h)).

Definition record (c : Call) : M unit :=
  fun h => (inr tt, mkHeap (this h) (calls h ++ [c])).

Definition lift {A} (r : Error + A) : M A :=
  match r with inr a => ret a | inl e => throw e end.

(** [for (const k in o) body(k)]; nothing to visit when [o] is
    [undefined]. *)
Fixpoint for_each (ks : list string) (body : string -> M unit) : M unit :=
  match ks with
  | [] => ret tt
  | k :: ks' => body k ;;; for_each ks' body
  end.

Definition for_in {V} (o : option (JsRecord.t V)) (body : string -> M unit)
    : M unit :=
  match o with
  | None => ret tt
  | Some r => for_each (JsRecord.keys r) body
  end.

(** [o[k]] for a key that [for ... in] has just produced.  The key is an
    own property, so the lookup finds it (see [index_own_key]); the other
    branch is there to make the function total. *)
Definition index {V} (o : option (JsRecord.t V)) (k : string) : M V :=
  match o with
  | Some r =>
      match JsRecord.get r k with
      | Some v => ret v
      | None => throw "TypeError: undefined property"
      end
  | None => throw "TypeError: undefined property"
  end.

(** A method call on [this.usageAlarmFactory]. *)
Definition callFactory (build : AlarmBuilder) (c : Call)
    (metric : MetricWithAlarmSupport) (alarmProps : UsageThreshold)
    (disambiguator : string) : M AlarmWithAnnotation :=
  record c ;;;
  f <- read usageAlarmFactory ;;
  let '(r, f') := build f metric alarmProps disambiguator in
  write (set_usageAlarmFactory f') ;;;
  lift r.

(** [this.usageAnnotations.push(a)] *)
Definition push_usageAnnotations (a : HorizontalAnnotation) : M unit :=
  write (fun o => set_usageAnnotations (usageAnnotations o ++ [a]) o).

(** Modelled from the spec: [Monitoring.addAlarm] of the base class, which
    is not part of the sources at hand; the spec has it append the alarm to
    the unit's alarm collection. *)
Definition addAlarm (a : AlarmWithAnnotation) : M unit :=
  write (fun o => set_alarms (alarms o ++ [a]) o).

(** Modelled from the spec: [Monitoring.createdAlarms] of the base class,
    the accessor of the unit's alarm collection. *)
Definition createdAlarms : M (list AlarmWithAnnotation) :=
  read alarms.

Definition diskLoopBody (props : RedshiftClusterMonitoringProps)
    (disambiguator : string) : M unit :=
  alarmProps <- index (addDiskSpaceUsageAlarm props) disambiguator ;;
  metric <- read diskSpaceUsageMetric ;;
  createdAlarm <-
    callFactory addMaxDiskUsagePercentAlarm
      (CallAddMaxDiskUsagePercentAlarm metric alarmProps disambiguator)
      metric alarmProps disambiguator ;;
  push_usageAnnotations (annotation createdAlarm) ;;;
  addAlarm createdAlarm.

Definition cpuLoopBody (props : RedshiftClusterMonitoringProps)
    (disambiguator : string) : M unit :=
  alarmProps <- index (addCpuUsageAlarm props) disambiguator ;;
  metric <- read cpuUsageMetric ;;
  createdAlarm <-
    callFactory addMaxCpuUsagePercentAlarm
      (CallAddMaxCpuUsagePercentAlarm metric alarmProps disambiguator)
      metric alarmProps disambiguator ;;
  push_usageAnnotations (annotation createdAlarm) ;;;
  addAlarm createdAlarm.

(** [props.useCreatedAlarms?.consume(this.createdAlarms())] *)
Definition handToConsumer (props : RedshiftClusterMonitoringProps) : M unit :=
  match useCreatedAlarms props with
  | Some consumer =>
      created <- createdAlarms ;;
      record (CallConsume created) ;;;
      lift (consume consumer created)
  | None => ret tt
  end.

(** The object as the straight-line part of the constructor leaves it when
    none of its collaborators throws: [super] has set [alarms] to the empty
    array, the fields are bound to the collaborators' answers.  The
    collaborators are here given by their answers; [Throwing.constructor]
    below is the constructor with a straight-line part that can throw. *)
Definition fieldsBound (props : RedshiftClusterMonitoringProps)
    : RedshiftClusterMonitoring :=
  let metricFactory := newRedshiftClusterMetricFactory props in
  {| alarms := [];
     title := resolveHumanReadableName props;
     url := getRedshiftClusterUrl (clusterIdentifier props);
     usageAlarmFactory := createAlarmFactory (resolveAlarmFriendlyName props);
     usageAnnotations := [];
     connectionsMetric := metricTotalConnectionCount metricFactory;
     diskSpaceUsageMetric := metricAverageDiskSpaceUsageInPercent metricFactory;
     cpuUsageMetric := metricAverageCpuUsageInPercent metricFactory;
     shortQueryDurationMetric := metricShortQueryDurationP90InMillis metricFactory;
     mediumQueryDurationMetric := metricMediumQueryDurationP90InMillis metricFactory;
     longQueryDurationMetric := metricLongQueryDurationP90InMillis metricFactory;
     readLatencyMetric := metricReadLatencyP90InMillis metricFactory;
     writeLatencyMetric := metricWriteLatencyP90InMillis metricFactory;
     maintenanceModeMetric := metricMaintenanceModeEnabled metricFactory |}.

(** The two loops and the hand-over to the consumer. *)
Definition constructorBody (props : RedshiftClusterMonitoringProps) : M unit :=
  for_in (addDiskSpaceUsageAlarm props) (diskLoopBody props) ;;;
  for_in (addCpuUsageAlarm props) (cpuLoopBody props) ;;;
  handToConsumer props.

(** [new RedshiftClusterMonitoring(scope, props)]: the outcome, and the
    object and call log at the moment the constructor returned or threw. *)
Definition constructor (props : RedshiftClusterMonitoringProps)
    : (Error + unit) * Heap :=
  constructorBody props (mkHeap (fieldsBound props) []).

(** *** Layouts *)

Definition createTitleWidget (o : RedshiftClusterMonitoring) : IWidget :=
  MonitoringHeaderWidget
    {| MonitoringHeaderWidgetProps.family := "Redshift Cluster";
       MonitoringHeaderWidgetProps.title := title o;
       MonitoringHeaderWidgetProps.goToLinkUrl := url o |}.

Definition createCpuAndDiskUsageWidget (o : RedshiftClusterMonitoring)
    (width height : number) : IWidget :=
  GraphWidget
    {| GraphWidgetProps.width := width;
       GraphWidgetProps.height := height;
       GraphWidgetProps.title := "CPU/Disk Usage";
       GraphWidgetProps.left := [cpuUsageMetric o; diskSpaceUsageMetric o];
       GraphWidgetProps.leftYAxis := PercentageAxisFromZeroToHundred;
       GraphWidgetProps.leftAnnotations := Some (usageAnnotations o) |}.

Definition createConnectionsWidget (o : RedshiftClusterMonitoring)
    (width height : number) : IWidget :=
  GraphWidget
    {| GraphWidgetProps.width := width;
       GraphWidgetProps.height := height;
       GraphWidgetProps.title := "Connections";
       GraphWidgetProps.left := [connectionsMetric o];
       GraphWidgetProps.leftYAxis := CountAxisFromZero;
       GraphWidgetProps.leftAnnotations := None |}.

Definition createQueryDurationWidget (o : RedshiftClusterMonitoring)
    (width height : number) : IWidget :=
  GraphWidget
    {| GraphWidgetProps.width := width;
       GraphWidgetProps.height := height;
       GraphWidgetProps.title := "Query Duration";
       GraphWidgetProps.left :=
         [shortQueryDurationMetric o;
          mediumQueryDurationMetric o;
          longQueryDurationMetric o];
       GraphWidgetProps.leftYAxis := TimeAxisMillisFromZero;
       GraphWidgetProps.leftAnnotations := None |}.

Definition createLatencyWidget (o : RedshiftClusterMonitoring)
    (width height : number) : IWidget :=
  GraphWidget
    {| GraphWidgetProps.width := width;
       GraphWidgetProps.height := height;
       GraphWidgetProps.title := "Latency";
       GraphWidgetProps.left := [readLatencyMetric o; writeLatencyMetric o];
       GraphWidgetProps.leftYAxis := TimeAxisMillisFromZero;
       GraphWidgetProps.leftAnnotations := None |}.

Definition createMaintenanceWidget (o : RedshiftClusterMonitoring)
    (width height : number) : IWidget :=
  GraphWidget
    {| GraphWidgetProps.width := width;
       GraphWidgetProps.height := height;
       GraphWidgetProps.title := "Maintenance";
       GraphWidgetProps.left := [maintenanceModeMetric o];
       GraphWidgetProps.leftYAxis := BooleanAxisFromZeroToOne;
       GraphWidgetProps.leftAnnotations := None |}.

Definition summaryWidgets (o : RedshiftClusterMonitoring) : list IWidget :=
  [ createTitleWidget o;
    createCpuAndDiskUsageWidget o ThirdWidth DefaultSummaryWidgetHeight;
    createConnectionsWidget o ThirdWidth DefaultSummaryWidgetHeight;
    createQueryDurationWidget o ThirdWidth DefaultSummaryWidgetHeight ].

Definition widgets (o : RedshiftClusterMonitoring) : list IWidget :=
  [ createTitleWidget o;
    createCpuAndDiskUsageWidget o QuarterWidth DefaultGraphWidgetHeight;
    createConnectionsWidget o QuarterWidth DefaultGraphWidgetHeight;
    createQueryDurationWidget o QuarterWidth DefaultGraphWidgetHeight;
    createLatencyWidget o HalfQuarterWidth DefaultGraphWidgetHeight;
    createMaintenanceWidget o HalfQuarterWidth DefaultGraphWidgetHeight ].

(** *** Vocabulary for the statements below *)

(** The two metrics that carry alarms. *)
Inductive UsageRole : Type := DiskSpaceUsage | CpuUsage.

(** One alarm to build: an entry of one of the two threshold records. *)
Record Job : Type := mkJob {
  jobRole : UsageRole;
  jobDisambiguator : string;
  jobThreshold : UsageThreshold
}.

Definition entriesOf {V} (o : option (JsRecord.t V)) : list (string * V) :=
  match o with Some r => r | None => [] end.

Definition sizeOf {V} (o : option (JsRecord.t V)) : nat :=
  List.length (entriesOf o).

Definition wfOpt {V} (o : option (JsRecord.t V)) : Prop :=
  match o with Some r => JsRecord.wf r | None => True end.

Definition thresholdsOf (role : UsageRole)
    (props : RedshiftClusterMonitoringProps)
    : option (JsRecord.t UsageThreshold) :=
  match role with
  | DiskSpaceUsage => addDiskSpaceUsageAlarm props
  | CpuUsage => addCpuUsageAlarm props
  end.

Definition jobsOf (role : UsageRole) (props : RedshiftClusterMonitoringProps)
    : list Job :=
  map (fun e => mkJob role (fst e) (snd e)) (entriesOf (thresholdsOf role props)).

(** All the alarms a configuration asks for, in the order of the two loops. *)
Definition jobs (props : RedshiftClusterMonitoringProps) : list Job :=
  jobsOf DiskSpaceUsage props ++ jobsOf CpuUsage props.

Definition metricOf (role : UsageRole) (o : RedshiftClusterMonitoring)
    : MetricWithAlarmSupport :=
  match role with
  | DiskSpaceUsage => diskSpaceUsageMetric o
  | CpuUsage => cpuUsageMetric o
  end.

Definition builderOf (role : UsageRole) : AlarmBuilder :=
  match role with
  | DiskSpaceUsage => addMaxDiskUsagePercentAlarm
  | CpuUsage => addMaxCpuUsagePercentAlarm
  end.

(** The factory call a job stands for, on the metrics of [o]. *)
Definition runJob (o : RedshiftClusterMonitoring) (j : Job)
    (f : UsageAlarmFactory) : (Error + AlarmWithAnnotation) * UsageAlarmFactory :=
  builderOf (jobRole j) f (metricOf (jobRole j) o) (jobThreshold j)
    (jobDisambiguator j).

Definition callOf (o : RedshiftClusterMonitoring) (j : Job) : Call :=
  match jobRole j with
  | DiskSpaceUsage =>
      CallAddMaxDiskUsagePercentAlarm (diskSpaceUsageMetric o) (jobThreshold j)
        (jobDisambiguator j)
  | CpuUsage =>
      CallAddMaxCpuUsagePercentAlarm (cpuUsageMetric o) (jobThreshold j)
        (jobDisambiguator j)
  end.

(** [Built o f js built f']: starting from factory state [f], the factory
    builds the jobs [js] one after the other without throwing, returns the
    alarms [built] (one per job, in the same order) and ends in state [f']. *)
Inductive Built (o : RedshiftClusterMonitoring)
    : UsageAlarmFactory -> list Job -> list AlarmWithAnnotation ->
      UsageAlarmFactory -> Prop :=
| Built_nil f : Built o f [] [] f
| Built_cons f j a f' js built f'' :
    runJob o j f = (inr a, f') ->
    Built o f' js built f'' ->
    Built o f (j :: js) (a :: built) f''.

(** The heap after the alarms [built] have been appended to both collections
    of the object in [h], the factory has moved to [f] and the calls [cs]
    have been made. *)
Definition commit (h : Heap) (built : list AlarmWithAnnotation)
    (f : UsageAlarmFactory) (cs : list Call) : Heap :=
  mkHeap
    (set_usageAlarmFactory f
       (set_usageAnnotations
          (usageAnnotations (this h) ++ map annotation built)
          (set_alarms (alarms (this h) ++ built) (this h))))
    (calls h ++ cs).

Definition getOpt {V} (o : option (JsRecord.t V)) (k : string) : option V :=
  match o with Some r => JsRecord.get r k | None => None end.

(** The body of the loop of a role. *)
Definition loopBody (role : UsageRole) (props : RedshiftClusterMonitoringProps)
    : string -> M unit :=
  match role with
  | DiskSpaceUsage => diskLoopBody props
  | CpuUsage => cpuLoopBody props
  end.

(** The loop bodies of a list of jobs, one after the other. *)
Fixpoint runJobs (props : RedshiftClusterMonitoringProps) (js : list Job)
    : M unit :=
  match js with
  | [] => ret tt
  | j :: js' =>
      loopBody (jobRole j) props (jobDisambiguator j) ;;; runJobs props js'
  end.

Definition usageMetricsOf (o : RedshiftClusterMonitoring)
    : MetricWithAlarmSupport * MetricWithAlarmSupport :=
  (diskSpaceUsageMetric o, cpuUsageMetric o).

(** Every job of [js] is found in the record of its role, under its
    key. *)
Definition listed (props : RedshiftClusterMonitoringProps) (js : list Job)
    : Prop :=
  forall j, In j js ->
    getOpt (thresholdsOf (jobRole j) props) (jobDisambiguator j)
      = Some (jobThreshold j).


Definition isConsume (c : Call) : bool :=
  match c with CallConsume _ => true | _ => false end.

(** Is [c] the call that builds the alarm [k] of role [role]? *)
Definition isBuildOf (role : UsageRole) (k : string) (c : Call) : bool :=
  match role, c with
  | DiskSpaceUsage, CallAddMaxDiskUsagePercentAlarm _ _ d => String.eqb d k
  | CpuUsage, CallAddMaxCpuUsagePercentAlarm _ _ d => String.eqb d k
  | _, _ => false
  end.

(** The fields a layout reads. *)
Definition metricBindings (o : RedshiftClusterMonitoring)
    : list MetricWithAlarmSupport :=
  [ connectionsMetric o; diskSpaceUsageMetric o; cpuUsageMetric o;
    shortQueryDurationMetric o; mediumQueryDurationMetric o;
    longQueryDurationMetric o; readLatencyMetric o; writeLatencyMetric o;
    maintenanceModeMetric o ].

(** What construction must leave as the straight-line part bound it. *)
Definition layoutFrame (o : RedshiftClusterMonitoring)
    : string * option string * list MetricWithAlarmSupport :=
  (title o, url o, metricBindings o).

(** A computation that leaves [title], [url] and the metrics alone, whether
    it returns or throws. *)
Definition keeps {A} (m : M A) : Prop :=
  forall h, layoutFrame (this (snd (m h))) = layoutFrame (this h).

(** Is [w] the graph titled [t]?  (A header is no graph, whatever its
    title.) *)
Definition isGraphTitled (t : string) (w : IWidget) : bool :=
  match w with
  | GraphWidget p => String.eqb (GraphWidgetProps.title p) t
  | MonitoringHeaderWidget _ => false
  end.

(** Two widgets that differ at most in their dimensions. *)
Definition sameContent (w1 w2 : IWidget) : Prop :=
  match w1, w2 with
  | GraphWidget p1, GraphWidget p2 =>
      GraphWidgetProps.title p1 = GraphWidgetProps.title p2 /\
      GraphWidgetProps.left p1 = GraphWidgetProps.left p2 /\
      GraphWidgetProps.leftYAxis p1 = GraphWidgetProps.leftYAxis p2 /\
      GraphWidgetProps.leftAnnotations p1 = GraphWidgetProps.leftAnnotations p2
  | MonitoringHeaderWidget p1, MonitoringHeaderWidget p2 => p1 = p2
  | _, _ => False
  end.

(** The [leftAnnotations] property of a graph widget, when it has one. *)
Definition leftAnnotationsOf (w : IWidget) : option (list HorizontalAnnotation) :=
  match w with
  | GraphWidget p => GraphWidgetProps.leftAnnotations p
  | MonitoringHeaderWidget _ => None
  end.


Definition isFactoryCall (c : Call) : bool := negb (isConsume c).

(** The disambiguators of the factory calls of a role among [cs], in the
    order of the calls. *)
Fixpoint disambiguatorsOf (role : UsageRole) (cs : list Call) : list string :=
  match cs with
  | [] => []
  | c :: cs' =>
      match role, c with
      | DiskSpaceUsage, CallAddMaxDiskUsagePercentAlarm _ _ d
      | CpuUsage, CallAddMaxCpuUsagePercentAlarm _ _ d =>
          d :: disambiguatorsOf role cs'
      | _, _ => disambiguatorsOf role cs'
      end
  end.

(** The metrics the graphs of a layout show, widget after widget. *)
Definition shownMetrics (ws : list IWidget) : list MetricWithAlarmSupport :=
  List.concat (map widgetMetrics ws).

(** Width and height of a graph. *)
Definition graphSize (w : IWidget) : option (number * number) :=
  match w with
  | GraphWidget p => Some (GraphWidgetProps.width p, GraphWidgetProps.height p)
  | MonitoringHeaderWidget _ => None
  end.

Definition isGraph (w : IWidget) : bool :=
  match w with GraphWidget _ => true | MonitoringHeaderWidget _ => false end.

End RedshiftClusterMonitoring.

(** ** The whole constructor

    The straight-line part of the constructor (the call of [super], the naming
    strategy, the console link, the alarm factory, the metric factory and its
    nine methods) calls collaborators that can throw.  What one of them throws
    leaves the constructor at once, before a loop has run. *)

Module Throwing.

(** [MonitoringNamingStrategy]: the two methods the constructor calls; each
    returns or throws. *)
Record MonitoringNamingStrategy : Type := mkNamingStrategy {
  resolveHumanReadableName : Error + string;
  resolveAlarmFriendlyName : Error + string
}.

(** [RedshiftClusterMetricFactory]: the nine methods the constructor calls;
    each returns or throws. *)
Record RedshiftClusterMetricFactory : Type := mkMetricMethods {
  metricTotalConnectionCount : Error + MetricWithAlarmSupport;
  metricAverageDiskSpaceUsageInPercent : Error + MetricWithAlarmSupport;
  metricAverageCpuUsageInPercent : Error + MetricWithAlarmSupport;
  metricShortQueryDurationP90InMillis : Error + MetricWithAlarmSupport;
  metricMediumQueryDurationP90InMillis : Error + MetricWithAlarmSupport;
  metricLongQueryDurationP90InMillis : Error + MetricWithAlarmSupport;
  metricReadLatencyP90InMillis : Error + MetricWithAlarmSupport;
  metricWriteLatencyP90InMillis : Error + MetricWithAlarmSupport;
  metricMaintenanceModeEnabled : Error + MetricWithAlarmSupport
}.

(** What the constructor reaches through [scope], [super] and [new], one
    field per statement of the source; a field that stands for a chain of
    calls throws what the first failing call of the chain throws. *)
Record MonitoringScope (UsageAlarmFactory : Type) : Type := mkScope {
  (** [super(scope, props)] *)
  superMonitoring : RedshiftClusterMonitoringProps -> Error + unit;
  (** [new MonitoringNamingStrategy({...props, fallbackConstructName})] *)
  newMonitoringNamingStrategy :
    RedshiftClusterMonitoringProps -> Error + MonitoringNamingStrategy;
  (** [scope.createAwsConsoleUrlFactory().getRedshiftClusterUrl(id)] *)
  getRedshiftClusterUrl : string -> Error + option string;
  (** [new UsageAlarmFactory(this.createAlarmFactory(name))] *)
  createAlarmFactory : string -> Error + UsageAlarmFactory;
  (** [new RedshiftClusterMetricFactory(scope.createMetricFactory(), props)] *)
  newRedshiftClusterMetricFactory :
    RedshiftClusterMonitoringProps -> Error + RedshiftClusterMetricFactory
}.

Arguments superMonitoring {UsageAlarmFactory}.
Arguments newMonitoringNamingStrategy {UsageAlarmFactory}.
Arguments getRedshiftClusterUrl {UsageAlarmFactory}.
Arguments createAlarmFactory {UsageAlarmFactory}.
Arguments newRedshiftClusterMetricFactory {UsageAlarmFactory}.

End Throwing.

(** Sequencing of calls that return or throw. *)
Definition bindE {A B} (m : Error + A) (k : A -> Error + B) : Error + B :=
  match m with
  | inl e => inl e
  | inr a => k a
  end.

(** What the straight-line part has bound when it completes. *)
Record Bound (UsageAlarmFactory : Type) : Type := mkBound {
  boundTitle : string;
  boundUrl : option string;
  boundAlarmFriendlyName : string;
  boundUsageAlarmFactory : UsageAlarmFactory;
  boundMetrics : RedshiftClusterMetricFactory
}.

Arguments mkBound {UsageAlarmFactory}.
Arguments boundTitle {UsageAlarmFactory}.
Arguments boundUrl {UsageAlarmFactory}.
Arguments boundAlarmFriendlyName {UsageAlarmFactory}.
Arguments boundUsageAlarmFactory {UsageAlarmFactory}.
Arguments boundMetrics {UsageAlarmFactory}.

(** The straight-line part, statement by statement in the order of the
    source. *)
Definition straightLine {UsageAlarmFactory : Type}
    (scope : Throwing.MonitoringScope UsageAlarmFactory)
    (props : RedshiftClusterMonitoringProps)
    : Error + Bound UsageAlarmFactory :=
  bindE (Throwing.superMonitoring scope props) (fun _ =>
  bindE (Throwing.newMonitoringNamingStrategy scope props) (fun namingStrategy =>
  bindE (Throwing.resolveHumanReadableName namingStrategy) (fun title =>
  bindE (Throwing.getRedshiftClusterUrl scope (clusterIdentifier props)) (fun url =>
  bindE (Throwing.resolveAlarmFriendlyName namingStrategy) (fun name =>
  bindE (Throwing.createAlarmFactory scope name) (fun usageAlarmFactory =>
  bindE (Throwing.newRedshiftClusterMetricFactory scope props) (fun metricFactory =>
  bindE (Throwing.metricTotalConnectionCount metricFactory) (fun connections =>
  bindE (Throwing.metricAverageDiskSpaceUsageInPercent metricFactory) (fun disk =>
  bindE (Throwing.metricAverageCpuUsageInPercent metricFactory) (fun cpu =>
  bindE (Throwing.metricShortQueryDurationP90InMillis metricFactory) (fun short =>
  bindE (Throwing.metricMediumQueryDurationP90InMillis metricFactory) (fun medium =>
  bindE (Throwing.metricLongQueryDurationP90InMillis metricFactory) (fun long =>
  bindE (Throwing.metricReadLatencyP90InMillis metricFactory) (fun read =>
  bindE (Throwing.metricWriteLatencyP90InMillis metricFactory) (fun write =>
  bindE (Throwing.metricMaintenanceModeEnabled metricFactory) (fun maintenance =>
  inr (mkBound title url name usageAlarmFactory
         (mkMetricFactory connections disk cpu short medium long read write
            maintenance)))))))))))))))))).

(** The loops and the hand-over on what the straight-line part has bound. *)
Definition constructorOn {UsageAlarmFactory : Type}
    (addMaxDiskUsagePercentAlarm addMaxCpuUsagePercentAlarm :
       @AlarmBuilder UsageAlarmFactory)
    (b : Bound UsageAlarmFactory) (props : RedshiftClusterMonitoringProps)
    : (Error + unit) * Heap :=
  constructor addMaxDiskUsagePercentAlarm addMaxCpuUsagePercentAlarm
    (fun _ => boundTitle b) (fun _ => boundAlarmFriendlyName b)
    (fun _ => boundUrl b) (fun _ => boundUsageAlarmFactory b)
    (fun _ => boundMetrics b) props.

(** The object as [b] binds it. *)
Definition objectOn {UsageAlarmFactory : Type} (b : Bound UsageAlarmFactory)
    (props : RedshiftClusterMonitoringProps) : RedshiftClusterMonitoring :=
  fieldsBound (fun _ => boundTitle b) (fun _ => boundAlarmFriendlyName b)
    (fun _ => boundUrl b) (fun _ => boundUsageAlarmFactory b)
    (fun _ => boundMetrics b) props.

(** [new RedshiftClusterMonitoring(scope, props)] with every collaborator:
    [inl e] when the straight-line part throws [e]; otherwise the outcome of
    the loops and the hand-over, with the object and the call log. *)
Definition newRedshiftClusterMonitoring {UsageAlarmFactory : Type}
    (scope : Throwing.MonitoringScope UsageAlarmFactory)
    (addMaxDiskUsagePercentAlarm addMaxCpuUsagePercentAlarm :
       @AlarmBuilder UsageAlarmFactory)
    (props : RedshiftClusterMonitoringProps)
    : Error + (Error + unit) * Heap :=
  match straightLine scope props with
  | inl e => inl e
  | inr b =>
      inr (constructorOn addMaxDiskUsagePercentAlarm
             addMaxCpuUsagePercentAlarm b props)
  end.

(** The constructor throws [e]: in the straight-line part, or later. *)
Definition throws {UsageAlarmFactory : Type}
    (r : Error + (Error + unit) * @Heap UsageAlarmFactory) (e : Error) : Prop :=
  r = inl e \/ exists h, r = inr (inl e, h).

(** [e] is what a collaborator of the straight-line part answered. *)
Inductive ThrownInStraightLine {UsageAlarmFactory : Type}
    (scope : Throwing.MonitoringScope UsageAlarmFactory)
    (props : RedshiftClusterMonitoringProps) (e : Error) : Prop :=
| ThrownBySuper :
    Throwing.superMonitoring scope props = inl e ->
    ThrownInStraightLine scope props e
| ThrownByNewNamingStrategy :
    Throwing.newMonitoringNamingStrategy scope props = inl e ->
    ThrownInStraightLine scope props e
| ThrownByHumanReadableName namingStrategy :
    Throwing.newMonitoringNamingStrategy scope props = inr namingStrategy ->
    Throwing.resolveHumanReadableName namingStrategy = inl e ->
    ThrownInStraightLine scope props e
| ThrownByClusterUrl :
    Throwing.getRedshiftClusterUrl scope (clusterIdentifier props) = inl e ->
    ThrownInStraightLine scope props e
| ThrownByAlarmFriendlyName namingStrategy :
    Throwing.newMonitoringNamingStrategy scope props = inr namingStrategy ->
    Throwing.resolveAlarmFriendlyName namingStrategy = inl e ->
    ThrownInStraightLine scope props e
| ThrownByCreateAlarmFactory namingStrategy name :
    Throwing.newMonitoringNamingStrategy scope props = inr namingStrategy ->
    Throwing.resolveAlarmFriendlyName namingStrategy = inr name ->
    Throwing.createAlarmFactory scope name = inl e ->
    ThrownInStraightLine scope props e
| ThrownByNewMetricFactory :
    Throwing.newRedshiftClusterMetricFactory scope props = inl e ->
    ThrownInStraightLine scope props e
| ThrownByMetricMethod metricFactory :
    Throwing.newRedshiftClusterMetricFactory scope props = inr metricFactory ->
    In (inl e)
      [ Throwing.metricTotalConnectionCount metricFactory;
        Throwing.metricAverageDiskSpaceUsageInPercent metricFactory;
        Throwing.metricAverageCpuUsageInPercent metricFactory;
        Throwing.metricShortQueryDurationP90InMillis metricFactory;
        Throwing.metricMediumQueryDurationP90InMillis metricFactory;
        Throwing.metricLongQueryDurationP90InMillis metricFactory;
        Throwing.metricReadLatencyP90InMillis metricFactory;
        Throwing.metricWriteLatencyP90InMillis metricFactory;
        Throwing.metricMaintenanceModeEnabled metricFactory ] ->
    ThrownInStraightLine scope props e.

(** ** A sample configuration

    A small alarm factory and the configurations used to exercise the
    statements below: the factory remembers the names it has handed out,
    refuses a name twice and refuses a limit above 100. *)
Module Sample.

Definition Factory : Type := list string.

Definition alarmFor (prefix d : string) (t : UsageThreshold)
    : AlarmWithAnnotation :=
  mkAlarm (String.append prefix d) t (mkAnnotation (limit t) (Some d)).

Definition build (prefix : string) : @AlarmBuilder Factory :=
  fun f _ t d =>
    if (100 <? limit t)%Z then (inl "limit out of range", f)
    else if existsb (String.eqb (String.append prefix d)) f
         then (inl "name already in use", f)
         else (inr (alarmFor prefix d t), String.append prefix d :: f).

(** A factory that never refuses. *)
Definition buildAlways (prefix : string) : @AlarmBuilder Factory :=
  fun f _ t d => (inr (alarmFor prefix d t), String.append prefix d :: f).

Definition metricFactory : RedshiftClusterMetricFactory :=
  {| metricTotalConnectionCount := mkMetric "DatabaseConnections" Count;
     metricAverageDiskSpaceUsageInPercent :=
       mkMetric "PercentageDiskSpaceUsed" Percentage;
     metricAverageCpuUsageInPercent := mkMetric "CPUUtilization" Percentage;
     metricShortQueryDurationP90InMillis := mkMetric "QueryDuration-short" TimeMillis;
     metricMediumQueryDurationP90InMillis := mkMetric "QueryDuration-medium" TimeMillis;
     metricLongQueryDurationP90InMillis := mkMetric "QueryDuration-long" TimeMillis;
     metricReadLatencyP90InMillis := mkMetric "ReadLatency" TimeMillis;
     metricWriteLatencyP90InMillis := mkMetric "WriteLatency" TimeMillis;
     metricMaintenanceModeEnabled := mkMetric "MaintenanceMode" Boolean |}.

Definition threshold (n : number) : UsageThreshold := mkThreshold n "max".

Definition accepting : IAlarmConsumer := mkConsumer (fun _ => inr tt).

(** One disk threshold [warn: 80], one CPU threshold [crit: 90], a
    consumer. *)
Definition props : RedshiftClusterMonitoringProps :=
  {| clusterIdentifier := "cluster-1";
     addDiskSpaceUsageAlarm := Some (JsRecord.of_entries [("warn", threshold 80%Z)]);
     addCpuUsageAlarm := Some (JsRecord.of_entries [("crit", threshold 90%Z)]);
     useCreatedAlarms := Some accepting |}.

(** Three disk thresholds, the second of which the factory refuses. *)
Definition propsRefused : RedshiftClusterMonitoringProps :=
  {| clusterIdentifier := "cluster-1";
     addDiskSpaceUsageAlarm :=
       Some (JsRecord.of_entries
               [("warn", threshold 70%Z); ("bad", threshold 120%Z);
                ("crit", threshold 90%Z)]);
     addCpuUsageAlarm := Some (JsRecord.of_entries [("crit", threshold 90%Z)]);
     useCreatedAlarms := Some accepting |}.

(** The disk record is written with the key [warn] twice. *)
Definition diskWrites : list (string * UsageThreshold) :=
  [("warn", threshold 70%Z); ("crit", threshold 90%Z); ("warn", threshold 80%Z)].

Definition cpuWrites : list (string * UsageThreshold) :=
  [("crit", threshold 90%Z)].

Definition propsTwice : RedshiftClusterMonitoringProps :=
  {| clusterIdentifier := "cluster-1";
     addDiskSpaceUsageAlarm := Some (JsRecord.of_entries diskWrites);
     addCpuUsageAlarm := Some (JsRecord.of_entries cpuWrites);
     useCreatedAlarms := Some accepting |}.

Definition name (p : RedshiftClusterMonitoringProps) : string :=
  clusterIdentifier p.

Definition consoleUrl (id : string) : option string :=
  Some (String.append "https://console/redshift/" id).

Definition freshFactory (_ : string) : Factory := [].

Definition catalogue (_ : RedshiftClusterMonitoringProps)
    : RedshiftClusterMetricFactory :=
  metricFactory.

Definition new (p : RedshiftClusterMonitoringProps) : (Error + unit) * Heap :=
  constructor (build "Disk-") (build "CPU-") name name consoleUrl freshFactory
    catalogue p.

Definition bound (p : RedshiftClusterMonitoringProps)
    : RedshiftClusterMonitoring :=
  fieldsBound name name consoleUrl freshFactory catalogue p.

(** The heap a construction ends with. *)
Definition finished (p : RedshiftClusterMonitoringProps) : Heap :=
  snd (new p).

(** The same with the factory that never refuses. *)
Definition newAlways (p : RedshiftClusterMonitoringProps)
    : (Error + unit) * Heap :=
  constructor (buildAlways "Disk-") (buildAlways "CPU-") name name consoleUrl
    freshFactory catalogue p.

(** The jobs of [propsRefused]: the one built, the one refused, the ones
    never reached. *)
Definition jobsBuilt : list Job :=
  [mkJob DiskSpaceUsage "warn" (threshold 70%Z)].

Definition jobRefused : Job := mkJob DiskSpaceUsage "bad" (threshold 120%Z).

Definition jobsNotReached : list Job :=
  [mkJob DiskSpaceUsage "crit" (threshold 90%Z);
   mkJob CpuUsage "crit" (threshold 90%Z)].

(** The finished object of [props] after someone has emptied its alarm list
    and used its factory once more. *)
Definition finishedLater : RedshiftClusterMonitoring :=
  set_alarms [] (set_usageAlarmFactory ["Disk-other"] (this (finished props))).

(** A consumer that throws. *)
Definition rejecting : IAlarmConsumer :=
  mkConsumer (fun _ => inl "consumer refused").

Definition propsRejected : RedshiftClusterMonitoringProps :=
  {| clusterIdentifier := "cluster-1";
     addDiskSpaceUsageAlarm := Some (JsRecord.of_entries [("warn", threshold 80%Z)]);
     addCpuUsageAlarm := Some (JsRecord.of_entries [("crit", threshold 90%Z)]);
     useCreatedAlarms := Some rejecting |}.

(** No disk record, an empty CPU record. *)
Definition propsBare : RedshiftClusterMonitoringProps :=
  {| clusterIdentifier := "cluster-1";
     addDiskSpaceUsageAlarm := None;
     addCpuUsageAlarm := Some JsRecord.empty;
     useCreatedAlarms := Some accepting |}.

(** Disk thresholds whose disambiguators are written in the order
    [warn], [10], [crit], [2]. *)
Definition diskWritesMixed : list (string * UsageThreshold) :=
  [("warn", threshold 70%Z); ("10", threshold 75%Z);
   ("crit", threshold 90%Z); ("2", threshold 60%Z)].

Definition propsMixed : RedshiftClusterMonitoringProps :=
  {| clusterIdentifier := "cluster-1";
     addDiskSpaceUsageAlarm := Some (JsRecord.of_entries diskWritesMixed);
     addCpuUsageAlarm := None;
     useCreatedAlarms := None |}.

(** A scope whose collaborators all answer. *)
Definition namingStrategy (p : RedshiftClusterMonitoringProps)
    : Throwing.MonitoringNamingStrategy :=
  Throwing.mkNamingStrategy (inr (name p)) (inr (name p)).

Definition metricMethods : Throwing.RedshiftClusterMetricFactory :=
  Throwing.mkMetricMethods
    (inr (metricTotalConnectionCount metricFactory))
    (inr (metricAverageDiskSpaceUsageInPercent metricFactory))
    (inr (metricAverageCpuUsageInPercent metricFactory))
    (inr (metricShortQueryDurationP90InMillis metricFactory))
    (inr (metricMediumQueryDurationP90InMillis metricFactory))
    (inr (metricLongQueryDurationP90InMillis metricFactory))
    (inr (metricReadLatencyP90InMillis metricFactory))
    (inr (metricWriteLatencyP90InMillis metricFactory))
    (inr (metricMaintenanceModeEnabled metricFactory)).

Definition scope : Throwing.MonitoringScope Factory :=
  Throwing.mkScope Factory
    (fun _ => inr tt)
    (fun p => inr (namingStrategy p))
    (fun id => inr (consoleUrl id))
    (fun _ => inr [])
    (fun _ => inr metricMethods).

(** A scope whose metric factory has no write-latency metric. *)
Definition scopeNoWriteLatency : Throwing.MonitoringScope Factory :=
  Throwing.mkScope Factory
    (fun _ => inr tt)
    (fun p => inr (namingStrategy p))
    (fun id => inr (consoleUrl id))
    (fun _ => inr [])
    (fun _ =>
       inr (Throwing.mkMetricMethods
              (inr (metricTotalConnectionCount metricFactory))
              (inr (metricAverageDiskSpaceUsageInPercent metricFactory))
              (inr (metricAverageCpuUsageInPercent metricFactory))
              (inr (metricShortQueryDurationP90InMillis metricFactory))
              (inr (metricMediumQueryDurationP90InMillis metricFactory))
              (inr (metricLongQueryDurationP90InMillis metricFactory))
              (inr (metricReadLatencyP90InMillis metricFactory))
              (inl "no such metric")
              (inr (metricMaintenanceModeEnabled metricFactory)))).


End Sample.

(** ** Facts about records *)

Module JsRecordFacts.
Import JsRecord.

Section Facts.
Context {V : Type}.
Implicit Types (r : t V) (k : string) (v : V).

Lemma get_In r k v : get r k = Some v -> In (k, v) r.
Proof.
  induction r as [|[k' v'] r IH]; simpl; [discriminate|].
  destruct (String.eqb_spec k k') as [->|_].
  - intros [= ->]. now left.
  - intros H. right. now apply IH.
Qed.

Lemma get_None_keys r k : get r k = None <-> ~ In k (keys r).
Proof.
  induction r as [|[k' v'] r IH]; simpl.
  - tauto.
  - destruct (String.eqb_spec k k') as [->|Hne].
    + split; [discriminate|]. intros H. exfalso. apply H. now left.
    + rewrite IH. split; [|tauto]. intros H [E|I]; [now subst|tauto].
Qed.

Lemma In_get r k v : wf r -> In (k, v) r -> get r k = Some v.
Proof.
  unfold wf. induction r as [|[k' v'] r IH]; simpl; [tauto|].
  intros Hnd [E|I].
  - injection E as -> ->. now rewrite String.eqb_refl.
  - inversion Hnd as [|? ? Hnotin Hnd']; subst.
    destruct (String.eqb_spec k k') as [->|_].
    + exfalso. apply Hnotin. change k' with (fst (k', v)). now apply in_map.
    + now apply IH.
Qed.



Lemma keys_replace r k v : keys (replace k v r) = keys r.
Proof.
  induction r as [|[k0 v0] r IH]; simpl; [reflexivity|].
  destruct (String.eqb k k0); simpl; [reflexivity|]. now rewrite IH.
Qed.


Lemma In_keys_insert_index r n k v k' :
  In k' (keys (insert_index n k v r)) <-> k' = k \/ In k' (keys r).
Proof.
  induction r as [|[k0 v0] r IH]; simpl.
  - intuition.
  - destruct (array_index k0) as [n0|]; [destruct (n0 <? n)%N|]; simpl;
      rewrite ?IH; intuition.
Qed.





Lemma In_keys_set r k v k' :
  In k' (keys (set k v r)) <-> k' = k \/ In k' (keys r).
Proof.
  unfold set. destruct (has r k) eqn:Hh.
  - rewrite keys_replace. split; [tauto|]. intros [->|I]; [|exact I].
    unfold has in Hh. destruct (get r k) eqn:Hg; [|discriminate].
    apply get_In in Hg. change k with (fst (k, v0)). now apply in_map.
  - destruct (array_index k).
    + apply In_keys_insert_index.
    + unfold keys. rewrite map_app, in_app_iff. simpl. intuition.
Qed.








(** Writing keeps the enumeration order. *)
Lemma ordered_keys_snoc lo ks k :
  array_index k = None ->
  ordered_keys lo ks = true -> ordered_keys lo (ks ++ [k]) = true.
Proof.
  intros Hk. revert lo. induction ks as [|k0 ks IH]; intros lo; simpl.
  - now rewrite Hk.
  - destruct (array_index k0).
    + rewrite !andb_true_iff. intros [H1 H2]. split; auto.
    + rewrite forallb_app. intros ->. simpl. now rewrite Hk.
Qed.

Lemma ordered_keys_insert_index r : forall lo n k v,
  array_index k = Some n -> (lo <= n)%N ->
  ordered_keys lo (keys r) = true ->
  ordered_keys lo (keys (insert_index n k v r)) = true.
Proof.
  induction r as [|[k0 v0] r IH]; intros lo n k v Hk Hlo; simpl.
  - intros _. rewrite Hk. rewrite andb_true_r. now apply N.leb_le.
  - destruct (array_index k0) as [n0|] eqn:E0.
    + rewrite andb_true_iff. intros [H1 H2].
      destruct (n0 <? n)%N eqn:Hlt; simpl.
      * rewrite E0, H1. simpl. apply IH; auto.
        apply N.ltb_lt in Hlt. lia.
      * rewrite Hk, E0, H2, andb_true_r.
        apply N.ltb_ge in Hlt. apply andb_true_iff.
        split; now apply N.leb_le.
    + intros H. simpl. rewrite Hk, E0, H, andb_true_r. now apply N.leb_le.
Qed.

Lemma ordered_set r k v : ordered r = true -> ordered (set k v r) = true.
Proof.
  unfold ordered, set. intros H. destruct (has r k).
  - now rewrite keys_replace.
  - destruct (array_index k) as [n|] eqn:Hk.
    + apply ordered_keys_insert_index; auto. lia.
    + unfold keys. rewrite map_app. now apply ordered_keys_snoc.
Qed.

(** A record written from entries enumerates its index keys first, in
    ascending order. *)
Lemma ordered_of_entries (es : list (string * V)) :
  ordered (of_entries es) = true.
Proof.
  unfold of_entries.
  assert (H : forall r, ordered r = true ->
              ordered (fold_left (fun r e => set (fst e) (snd e) r) es r) = true).
  { induction es as [|[k v] es IH]; intros r Hr; simpl; [exact Hr|].
    apply IH. now apply ordered_set. }
  now apply H.
Qed.

Lemma other_keys_insert_index r n k v :
  array_index k = Some n ->
  other_keys (insert_index n k v r) = other_keys r.
Proof.
  intros Hk. unfold other_keys.
  induction r as [|[k0 v0] r IH]; simpl.
  - now rewrite Hk.
  - destruct (array_index k0) as [n0|] eqn:E0; [destruct (n0 <? n)%N|]; simpl;
      rewrite ?Hk, ?E0, ?IH; reflexivity.
Qed.

(** The other keys are enumerated in the order of their creation: a new one
    goes last, a key written again keeps its place. *)
Lemma other_keys_set r k v :
  other_keys (set k v r) =
  other_keys r ++
  (if has r k then []
   else match array_index k with Some _ => [] | None => [k] end).
Proof.
  unfold set. destruct (has r k).
  - unfold other_keys. now rewrite keys_replace, app_nil_r.
  - destruct (array_index k) as [n|] eqn:Hk.
    + now rewrite (other_keys_insert_index _ _ _ _ Hk), app_nil_r.
    + unfold other_keys, keys. rewrite map_app, filter_app. simpl.
      now rewrite Hk.
Qed.

Lemma has_In_keys r k : has r k = true <-> In k (keys r).
Proof.
  unfold has. destruct (get r k) eqn:E.
  - split; [intros _|reflexivity]. apply get_In in E.
    change k with (fst (k, v)). now apply in_map.
  - split; [discriminate|]. intros I. apply get_None_keys in E. contradiction.
Qed.

Lemma existsb_other_keys r k :
  array_index k = None ->
  existsb (String.eqb k) (other_keys r) = has r k.
Proof.
  intros Hk. apply eq_true_iff_eq. rewrite existsb_exists, has_In_keys.
  unfold other_keys. split.
  - intros (k' & I & E). apply String.eqb_eq in E as <-.
    now apply filter_In in I as [I _].
  - intros I. exists k. split; [|apply String.eqb_refl].
    apply filter_In. split; [exact I|]. now rewrite Hk.
Qed.

Lemma other_keys_fold (es : list (string * V)) : forall r,
  other_keys (fold_left (fun r e => set (fst e) (snd e) r) es r) =
  other_keys r
  ++ first_occurrences (other_keys r) (filter is_other_key (map fst es)).
Proof.
  induction es as [|[k v] es IH]; intros r; simpl.
  - now rewrite app_nil_r.
  - rewrite IH, other_keys_set. unfold is_other_key at 2.
    destruct (array_index k) as [n|] eqn:Hk.
    + destruct (has r k); now rewrite app_nil_r.
    + simpl. rewrite (existsb_other_keys r k Hk).
      destruct (has r k).
      * now rewrite app_nil_r.
      * rewrite <- app_assoc. reflexivity.
Qed.

(** The keys of a record written from entries that are no array index are
    enumerated in the order in which they were first written. *)
Lemma other_keys_of_entries (es : list (string * V)) :
  other_keys (of_entries es)
    = first_occurrences [] (filter is_other_key (map fst es)).
Proof. unfold of_entries. now rewrite other_keys_fold. Qed.

End Facts.
End JsRecordFacts.

(** Index keys come first, in numeric order; a key written again keeps its
    place and takes the new value; [01] is no index. *)
Example of_entries_order :
  JsRecord.keys (JsRecord.of_entries
     [("warn", 1%Z); ("10", 2%Z); ("crit", 3%Z); ("2", 4%Z); ("warn", 5%Z); ("01", 6%Z)])
  = ["2"; "10"; "warn"; "crit"; "01"]
  /\ JsRecord.get (JsRecord.of_entries
     [("warn", 1%Z); ("10", 2%Z); ("crit", 3%Z); ("2", 4%Z); ("warn", 5%Z); ("01", 6%Z)]) "warn"
  = Some 5%Z.
Proof. split; reflexivity. Qed.

(** [Object.fromEntries] makes [__proto__] an own property like any other
    key. *)
Example of_entries_proto :
  JsRecord.of_entries [("__proto__", 1%Z); ("warn", 2%Z); ("__proto__", 3%Z)]
  = [("__proto__", 3%Z); ("warn", 2%Z)].
Proof. reflexivity. Qed.

(** ** The constructor *)

Section Properties.

(** Any alarm factory, naming strategy, scope and metric factory. *)
Context {UsageAlarmFactory : Type}.
Variables addDisk addCpu : @AlarmBuilder UsageAlarmFactory.
Variables humanReadableName alarmFriendlyName :
  RedshiftClusterMonitoringProps -> string.
Variable clusterUrl : string -> option string.
Variable alarmFactory : string -> UsageAlarmFactory.
Variable metricFactory :
  RedshiftClusterMonitoringProps -> RedshiftClusterMetricFactory.

(** With these collaborators: [new props] is the run of the constructor,
    [bound props] the object before the loops, [body] a loop body, [run] the
    factory call of a job, [built] the relation [Built] and [steps] the loop
    bodies of a list of jobs. *)
Local Abbreviation new :=
  (constructor addDisk addCpu humanReadableName alarmFriendlyName clusterUrl
     alarmFactory metricFactory).
Local Abbreviation bound :=
  (fieldsBound humanReadableName alarmFriendlyName clusterUrl alarmFactory
     metricFactory).
Local Abbreviation body := (loopBody addDisk addCpu).
Local Abbreviation run := (runJob addDisk addCpu).
Local Abbreviation built := (Built addDisk addCpu).
Local Abbreviation steps := (runJobs addDisk addCpu).

Implicit Types (h : @Heap UsageAlarmFactory).
Implicit Types (o : @RedshiftClusterMonitoring UsageAlarmFactory).
Implicit Types (props : RedshiftClusterMonitoringProps) (j : Job) (js : list Job).

Lemma bind_assoc {A B C} (m : M A) (k : A -> M B) (k' : B -> M C) h :
  bind (bind m k) k' h = bind m (fun a => bind (k a) k') h.
Proof. unfold bind. destruct (m h) as [[e|a] h']; reflexivity. Qed.

Lemma commit_commit h b1 f1 c1 b2 f2 c2 :
  commit (commit h b1 f1 c1) b2 f2 c2 = commit h (b1 ++ b2) f2 (c1 ++ c2).
Proof.
  destruct h as [o cs]. unfold commit. simpl.
  now rewrite map_app, !app_assoc.
Qed.

Lemma commit_nil h : commit h [] (usageAlarmFactory (this h)) [] = h.
Proof.
  destruct h as [o cs]. destruct o. unfold commit. simpl.
  now rewrite !app_nil_r.
Qed.

Lemma usageMetricsOf_commit h b f c :
  usageMetricsOf (this (commit h b f c)) = usageMetricsOf (this h).
Proof. reflexivity. Qed.

Lemma run_ext o1 o2 j f :
  usageMetricsOf o1 = usageMetricsOf o2 -> run o1 j f = run o2 j f.
Proof.
  unfold usageMetricsOf, runJob, metricOf. intros [= Hd Hc].
  destruct (jobRole j); congruence.
Qed.

Lemma callOf_ext o1 o2 j :
  usageMetricsOf o1 = usageMetricsOf o2 -> callOf o1 j = callOf o2 j.
Proof.
  unfold usageMetricsOf, callOf. intros [= Hd Hc].
  destruct (jobRole j); congruence.
Qed.

(** The lookup of a key that [for ... in] produced finds a value. *)
Lemma index_own_key {V} (r : JsRecord.t V) k h :
  In k (JsRecord.keys r) ->
  exists v, JsRecord.get r k = Some v /\
            @index UsageAlarmFactory V (Some r) k h = (inr v, h).
Proof.
  intros I. unfold index. destruct (JsRecord.get r k) as [v|] eqn:E.
  - exists v. split; reflexivity.
  - apply JsRecordFacts.get_None_keys in E. contradiction.
Qed.

(** One turn of a loop whose factory call returns. *)
Lemma body_returns props o h j a f' :
  getOpt (thresholdsOf (jobRole j) props) (jobDisambiguator j)
    = Some (jobThreshold j) ->
  usageMetricsOf (this h) = usageMetricsOf o ->
  run o j (usageAlarmFactory (this h)) = (inr a, f') ->
  body (jobRole j) props (jobDisambiguator j) h
    = (inr tt, commit h [a] f' [callOf o j]).
Proof.
  intros Hget Hm Hrun. rewrite <- (run_ext _ _ _ _ Hm) in Hrun.
  rewrite <- (callOf_ext _ _ _ Hm).
  destruct j as [role k v]. destruct h as [o' cs]. simpl in *.
  unfold runJob in Hrun. simpl in Hrun.
  destruct role; simpl in *;
    [ destruct (addDiskSpaceUsageAlarm props) as [r|] eqn:Hr
    | destruct (addCpuUsageAlarm props) as [r|] eqn:Hr ];
    cbn [getOpt] in Hget; try discriminate;
    cbv [diskLoopBody cpuLoopBody bind index read callFactory record write
         lift push_usageAnnotations addAlarm ret throw];
    rewrite Hr, Hget; cbn; rewrite Hrun; cbn; reflexivity.
Qed.

(** One turn of a loop whose factory call throws. *)
Lemma body_throws props o h j e f' :
  getOpt (thresholdsOf (jobRole j) props) (jobDisambiguator j)
    = Some (jobThreshold j) ->
  usageMetricsOf (this h) = usageMetricsOf o ->
  run o j (usageAlarmFactory (this h)) = (inl e, f') ->
  body (jobRole j) props (jobDisambiguator j) h
    = (inl e, commit h [] f' [callOf o j]).
Proof.
  intros Hget Hm Hrun. rewrite <- (run_ext _ _ _ _ Hm) in Hrun.
  rewrite <- (callOf_ext _ _ _ Hm).
  destruct j as [role k v]. destruct h as [o' cs]. simpl in *.
  unfold runJob in Hrun. simpl in Hrun.
  destruct role; simpl in *;
    [ destruct (addDiskSpaceUsageAlarm props) as [r|] eqn:Hr
    | destruct (addCpuUsageAlarm props) as [r|] eqn:Hr ];
    cbn [getOpt] in Hget; try discriminate;
    cbv [diskLoopBody cpuLoopBody bind index read callFactory record write
         lift push_usageAnnotations addAlarm ret throw];
    rewrite Hr, Hget; cbn; rewrite Hrun; cbn;
    unfold commit; cbn; rewrite !app_nil_r; destruct o'; reflexivity.
Qed.

Lemma listed_app props js1 js2 :
  listed props (js1 ++ js2) <-> listed props js1 /\ listed props js2.
Proof.
  unfold listed. split.
  - intros H. split; intros j I; apply H; apply in_app_iff; tauto.
  - intros [H1 H2] j I. apply in_app_iff in I as [I|I]; auto.
Qed.

Lemma listed_jobsOf role props :
  wfOpt (thresholdsOf role props) -> listed props (jobsOf role props).
Proof.
  unfold listed, jobsOf, entriesOf, wfOpt, getOpt.
  destruct (thresholdsOf role props) as [r|] eqn:Hr; [|intros _ j []].
  intros Hwf j I. apply in_map_iff in I as [[k v] [<- I]]. simpl.
  rewrite Hr. now apply JsRecordFacts.In_get.
Qed.

Lemma listed_jobs props :
  wfOpt (addDiskSpaceUsageAlarm props) -> wfOpt (addCpuUsageAlarm props) ->
  listed props (jobs props).
Proof.
  intros Hd Hc. apply listed_app. split.
  - now apply (listed_jobsOf DiskSpaceUsage).
  - now apply (listed_jobsOf CpuUsage).
Qed.

Lemma built_length o f js bs f' :
  built o f js bs f' -> List.length bs = List.length js.
Proof. induction 1; simpl; congruence. Qed.

Lemma built_app o js1 : forall f js2 bs f',
  built o f (js1 ++ js2) bs f' <->
  exists b1 b2 fm,
    bs = b1 ++ b2 /\ built o f js1 b1 fm /\ built o fm js2 b2 f'.
Proof.
  induction js1 as [|j js1 IH]; intros f js2 bs f'; simpl.
  - split.
    + intros H. exists [], bs, f. repeat split; [constructor|exact H].
    + intros (b1 & b2 & fm & -> & H1 & H2). inversion H1; subst. exact H2.
  - split.
    + intros H. inversion H as [|? ? a f1 ? bs' ? Hrun Hrest]; subst.
      apply IH in Hrest as (b1 & b2 & fm & -> & H1 & H2).
      exists (a :: b1), b2, fm. repeat split; [|exact H2].
      econstructor; eassumption.
    + intros (b1 & b2 & fm & -> & H1 & H2).
      inversion H1 as [|? ? a f1 ? bs' ? Hrun Hrest]; subst. simpl.
      econstructor; [eassumption|]. apply IH. eauto 6.
Qed.

(** The factory decides: it builds every job, or there is a first job it
    refuses. *)
Lemma built_or_refused o js : forall f,
  (exists bs f', built o f js bs f') \/
  (exists pre j post bs f1 e f2,
     js = pre ++ j :: post /\ built o f pre bs f1 /\
     run o j f1 = (inl e, f2)).
Proof.
  induction js as [|j js IH]; intros f.
  - left. exists [], f. constructor.
  - destruct (run o j f) as [[e|a] f1] eqn:Hrun.
    + right. exists [], j, js, [], f, e, f1. repeat split; [constructor|exact Hrun].
    + destruct (IH f1) as [(bs & f' & H)|(pre & j' & post & bs & f2 & e & f3 & -> & H & Hr)].
      * left. exists (a :: bs), f'. econstructor; eassumption.
      * right. exists (j :: pre), j', post, (a :: bs), f2, e, f3.
        repeat split; [econstructor; eassumption|exact Hr].
Qed.

Lemma built_unique o js : forall f b1 f1 b2 f2,
  built o f js b1 f1 -> built o f js b2 f2 -> b1 = b2 /\ f1 = f2.
Proof.
  induction js as [|j js IH]; intros f b1 f1 b2 f2 H1 H2.
  - inversion H1; inversion H2; subst. tauto.
  - inversion H1 as [|? ? a fa ? bs ? Ha Hresta]; subst.
    inversion H2 as [|? ? b fb ? bs' ? Hb Hrestb]; subst.
    rewrite Ha in Hb. injection Hb as <- <-.
    destruct (IH _ _ _ _ _ Hresta Hrestb) as [-> ->]. tauto.
Qed.

(** The loop bodies of jobs the factory builds. *)
Lemma steps_built props o js : forall h bs f',
  listed props js ->
  usageMetricsOf (this h) = usageMetricsOf o ->
  built o (usageAlarmFactory (this h)) js bs f' ->
  steps props js h = (inr tt, commit h bs f' (map (callOf o) js)).
Proof.
  induction js as [|j js IH]; intros h bs f' Hl Hm Hb.
  - inversion Hb; subst. simpl. unfold ret. now rewrite commit_nil.
  - inversion Hb as [|? ? a f1 ? bs' ? Hrun Hrest]; subst. simpl.
    unfold bind. rewrite (body_returns props o h j a f1); auto.
    + rewrite (IH _ bs' f'); auto.
      * now rewrite commit_commit.
      * intros j' I. apply Hl. now right.
    + apply Hl. now left.
Qed.

Lemma steps_app props js1 : forall js2 h,
  steps props (js1 ++ js2) h
    = bind (steps props js1) (fun _ => steps props js2) h.
Proof.
  induction js1 as [|j js1 IH]; intros js2 h; simpl.
  - reflexivity.
  - rewrite bind_assoc. unfold bind at 1 2.
    destruct (body (jobRole j) props (jobDisambiguator j) h) as [[e|[]] h1];
      [reflexivity|]. apply IH.
Qed.

(** The loop bodies of jobs of which the factory refuses one. *)
Lemma steps_refused props o pre j post h bs f1 e f2 :
  listed props (pre ++ j :: post) ->
  usageMetricsOf (this h) = usageMetricsOf o ->
  built o (usageAlarmFactory (this h)) pre bs f1 ->
  run o j f1 = (inl e, f2) ->
  steps props (pre ++ j :: post) h
    = (inl e, commit h bs f2 (map (callOf o) (pre ++ [j]))).
Proof.
  intros Hl Hm Hb Hrun. apply listed_app in Hl as [Hpre Hj].
  rewrite steps_app. unfold bind at 1.
  rewrite (steps_built props o pre h bs f1); auto. simpl. unfold bind.
  rewrite (body_throws props o _ j e f2); auto.
  - rewrite commit_commit, app_nil_r, map_app. reflexivity.
  - apply Hj. now left.
Qed.

Lemma for_in_steps role props h :
  for_in (thresholdsOf role props) (body role props) h
    = steps props (jobsOf role props) h.
Proof.
  unfold for_in, jobsOf, entriesOf, JsRecord.keys.
  destruct (thresholdsOf role props) as [r|]; [|reflexivity].
  revert h. induction r as [|[k v] r IH]; intros h; simpl; [reflexivity|].
  unfold bind. destruct (body role props k h) as [[e|[]] h1]; [reflexivity|].
  apply IH.
Qed.

(** The two loops are the loop bodies of the jobs of the configuration. *)
Lemma constructorBody_steps props h :
  constructorBody addDisk addCpu props h
    = bind (steps props (jobs props)) (fun _ => handToConsumer props) h.
Proof.
  unfold constructorBody, jobs.
  change (for_in (addDiskSpaceUsageAlarm props) (diskLoopBody addDisk props))
    with (for_in (thresholdsOf DiskSpaceUsage props) (body DiskSpaceUsage props)).
  change (for_in (addCpuUsageAlarm props) (cpuLoopBody addCpu props))
    with (for_in (thresholdsOf CpuUsage props) (body CpuUsage props)).
  rewrite <- bind_assoc. unfold bind. rewrite for_in_steps, steps_app.
  unfold bind.
  destruct (steps props (jobsOf DiskSpaceUsage props) h) as [[e|[]] h1];
    [reflexivity|].
  rewrite for_in_steps. reflexivity.
Qed.

(** The hand-over: one call, with the alarm collection as it stands. *)
Lemma handToConsumer_run props h :
  handToConsumer props h =
  match useCreatedAlarms props with
  | Some consumer =>
      (consume consumer (alarms (this h)),
       mkHeap (this h) (calls h ++ [CallConsume (alarms (this h))]))
  | None => (inr tt, h)
  end.
Proof.
  unfold handToConsumer. destruct (useCreatedAlarms props) as [c|]; [|reflexivity].
  cbv [bind createdAlarms read record lift]. cbn.
  destruct (consume c (alarms (this h))) as [e|[]]; reflexivity.
Qed.

(** The two ways a construction can go: the factory builds every alarm and
    the consumer, if any, gets the collection; or the factory refuses an
    alarm and the constructor throws what the factory threw. *)
Lemma constructor_cases props :
  wfOpt (addDiskSpaceUsageAlarm props) -> wfOpt (addCpuUsageAlarm props) ->
  let h0 := mkHeap (bound props) [] in
  (exists bs f',
     built (bound props) (usageAlarmFactory (bound props)) (jobs props) bs f' /\
     new props
       = handToConsumer props
           (commit h0 bs f' (map (callOf (bound props)) (jobs props)))) \/
  (exists pre j post bs f1 e f2,
     jobs props = pre ++ j :: post /\
     built (bound props) (usageAlarmFactory (bound props)) pre bs f1 /\
     run (bound props) j f1 = (inl e, f2) /\
     new props
       = (inl e, commit h0 bs f2 (map (callOf (bound props)) (pre ++ [j])))).
Proof.
  intros Hd Hc h0. pose proof (listed_jobs props Hd Hc) as Hl.
  unfold constructor. fold h0.
  destruct (built_or_refused (bound props) (jobs props)
              (usageAlarmFactory (bound props)))
    as [(bs & f' & Hb)|(pre & j & post & bs & f1 & e & f2 & Hjs & Hb & Hrun)].
  - left. exists bs, f'. split; [exact Hb|].
    rewrite constructorBody_steps. unfold bind.
    now rewrite (steps_built props (bound props) (jobs props) h0 bs f').
  - right. exists pre, j, post, bs, f1, e, f2. repeat split; auto.
    rewrite constructorBody_steps. unfold bind. rewrite Hjs in *.
    now rewrite (steps_refused props (bound props) pre j post h0 bs f1 e f2).
Qed.

(** A construction that returns has built every alarm. *)
Lemma new_returned props h :
  wfOpt (addDiskSpaceUsageAlarm props) -> wfOpt (addCpuUsageAlarm props) ->
  new props = (inr tt, h) ->
  exists bs f',
    built (bound props) (usageAlarmFactory (bound props)) (jobs props) bs f' /\
    alarms (this h) = bs /\
    usageAnnotations (this h) = map annotation bs /\
    usageAlarmFactory (this h) = f' /\
    calls h = map (callOf (bound props)) (jobs props) ++
              match useCreatedAlarms props with
              | Some _ => [CallConsume bs]
              | None => []
              end.
Proof.
  intros Hd Hc Hnew.
  destruct (constructor_cases props Hd Hc)
    as [(bs & f' & Hb & E)|(pre & j & post & bs & f1 & e & f2 & _ & _ & _ & E)];
    rewrite E in Hnew; [|discriminate].
  exists bs, f'. split; [exact Hb|].
  rewrite handToConsumer_run in Hnew.
  destruct (useCreatedAlarms props) as [c|];
    inversion Hnew; subst; cbn; rewrite ?app_nil_r; auto.
Qed.

(** If neither the factory nor the consumer ever throws, the constructor
    returns. *)
Lemma new_returns props :
  (forall role f m t d, exists a f', builderOf addDisk addCpu role f m t d = (inr a, f')) ->
  (forall c l, useCreatedAlarms props = Some c -> consume c l = inr tt) ->
  wfOpt (addDiskSpaceUsageAlarm props) -> wfOpt (addCpuUsageAlarm props) ->
  exists h, new props = (inr tt, h).
Proof.
  intros Hf Hcons Hd Hc.
  destruct (constructor_cases props Hd Hc)
    as [(bs & f' & Hb & E)|(pre & j & post & bs & f1 & e & f2 & _ & _ & Hrun & _)].
  - rewrite E, handToConsumer_run.
    destruct (useCreatedAlarms props) as [c|] eqn:Hu; [|eauto].
    rewrite (Hcons c _ eq_refl). eauto.
  - unfold runJob in Hrun.
    destruct (Hf (jobRole j) f1 (metricOf (jobRole j) (bound props))
                (jobThreshold j) (jobDisambiguator j)) as (a & f' & E).
    rewrite E in Hrun. discriminate.
Qed.

Lemma length_jobsOf role props :
  List.length (jobsOf role props) = sizeOf (thresholdsOf role props).
Proof. unfold jobsOf, sizeOf. apply length_map. Qed.

Lemma length_jobs props :
  List.length (jobs props)
    = sizeOf (addDiskSpaceUsageAlarm props) + sizeOf (addCpuUsageAlarm props).
Proof.
  unfold jobs. rewrite length_app, !length_jobsOf. reflexivity.
Qed.

(** The calls that build the alarm [k] of a role, among the calls of the
    jobs of a role. *)
Lemma filter_calls_jobsOf o role role' props k :
  filter (isBuildOf role k) (map (callOf o) (jobsOf role' props)) =
  map (fun e => callOf o (mkJob role' (fst e) (snd e)))
    (filter (fun e => match role, role' with
                      | DiskSpaceUsage, DiskSpaceUsage
                      | CpuUsage, CpuUsage => String.eqb (fst e) k
                      | _, _ => false
                      end)
       (entriesOf (thresholdsOf role' props))).
Proof.
  unfold jobsOf. induction (entriesOf (thresholdsOf role' props)) as [|[k0 v0] es IH];
    simpl; [reflexivity|].
  rewrite IH. destruct role, role'; simpl; try reflexivity;
    destruct (String.eqb k0 k); reflexivity.
Qed.


Lemma filter_key_none {V} (es : list (string * V)) :
  filter (fun _ : string * V => false) es = [].
Proof. induction es; simpl; auto. Qed.


Lemma filter_isBuildOf_consume role k l :
  filter (isBuildOf role k) [CallConsume l] = [].
Proof. destruct role; reflexivity. Qed.


Lemma no_consume_among_factory_calls o js :
  filter isConsume (map (@callOf UsageAlarmFactory o) js) = [].
Proof.
  induction js as [|j js IH]; simpl; [reflexivity|].
  unfold callOf at 1. destruct (jobRole j); exact IH.
Qed.

(** *** The annotation sequence *)

(** C1: when construction returns, [usageAnnotations] holds the annotation of
    every alarm the factory built for the disk-usage record, in the order in
    which [for ... in] visits the record, followed by the annotation of every
    alarm built for the CPU-usage record, in that record's order; with records
    of [N] and [M] entries that is [N + M] annotations. *)
Theorem annotations_disk_then_cpu props h :
  wfOpt (addDiskSpaceUsageAlarm props) -> wfOpt (addCpuUsageAlarm props) ->
  new props = (inr tt, h) ->
  exists diskAlarms cpuAlarms fm,
    built (bound props) (usageAlarmFactory (bound props))
      (jobsOf DiskSpaceUsage props) diskAlarms fm /\
    built (bound props) fm (jobsOf CpuUsage props) cpuAlarms
      (usageAlarmFactory (this h)) /\
    usageAnnotations (this h)
      = map annotation diskAlarms ++ map annotation cpuAlarms /\
    List.length diskAlarms = sizeOf (addDiskSpaceUsageAlarm props) /\
    List.length cpuAlarms = sizeOf (addCpuUsageAlarm props) /\
    List.length (usageAnnotations (this h))
      = sizeOf (addDiskSpaceUsageAlarm props)
        + sizeOf (addCpuUsageAlarm props).
Proof.
  intros Hd Hc Hnew.
  destruct (new_returned props h Hd Hc Hnew)
    as (bs & f' & Hb & _ & Hann & Hf & _).
  apply built_app in Hb as (b1 & b2 & fm & -> & H1 & H2).
  pose proof (built_length _ _ _ _ _ H1) as L1.
  pose proof (built_length _ _ _ _ _ H2) as L2.
  rewrite length_jobsOf in L1, L2. simpl in L1, L2.
  exists b1, b2, fm. rewrite Hf, Hann, map_app, length_app, !length_map.
  repeat split; auto.
Qed.

(** *** The consumer *)


(** C6: when construction returns and a consumer was supplied, [consume] was
    applied to the alarm collection of the finished object and returned (the
    outcome of the constructor is its outcome); that call was made once and is
    the last one the constructor made, after the factory call of every entry
    of both records; the collection holds one alarm per entry, each the
    factory's answer for its entry.  Without a consumer no such call is
    made. *)
Theorem consumer_called_once_at_end props h :
  wfOpt (addDiskSpaceUsageAlarm props) -> wfOpt (addCpuUsageAlarm props) ->
  new props = (inr tt, h) ->
  match useCreatedAlarms props with
  | Some consumer =>
      consume consumer (alarms (this h)) = inr tt /\
      fst (new props) = consume consumer (alarms (this h)) /\
      calls h = map (callOf (bound props)) (jobs props)
                ++ [CallConsume (alarms (this h))] /\
      filter isConsume (calls h) = [CallConsume (alarms (this h))] /\
      List.length (alarms (this h))
        = sizeOf (addDiskSpaceUsageAlarm props)
          + sizeOf (addCpuUsageAlarm props) /\
      exists f',
        built (bound props) (usageAlarmFactory (bound props)) (jobs props)
          (alarms (this h)) f'
  | None => filter isConsume (calls h) = []
  end.
Proof.
  intros Hd Hc Hnew.
  destruct (constructor_cases props Hd Hc)
    as [(bs & f' & Hb & E)|(pre & j & post & bs & f1 & e & f2 & _ & _ & _ & E)];
    [|rewrite E in Hnew; discriminate].
  pose proof Hnew as Hrun. rewrite E, handToConsumer_run in Hrun.
  destruct (useCreatedAlarms props) as [c|].
  - cbn in Hrun. injection Hrun as Hcons <-. cbn.
    rewrite Hnew. cbn. rewrite Hcons.
    rewrite filter_app, no_consume_among_factory_calls.
    rewrite (built_length _ _ _ _ _ Hb), length_jobs. cbn. eauto 10.
  - injection Hrun as <-. cbn. apply no_consume_among_factory_calls.
Qed.

(** Whatever the outcome, [consume] is called at most once, and not at all
    without a consumer. *)
Lemma consume_at_most_once props :
  wfOpt (addDiskSpaceUsageAlarm props) -> wfOpt (addCpuUsageAlarm props) ->
  List.length (filter isConsume (calls (snd (new props)))) <= 1 /\
  (useCreatedAlarms props = None ->
   filter isConsume (calls (snd (new props))) = []).
Proof.
  intros Hd Hc.
  destruct (constructor_cases props Hd Hc)
    as [(bs & f' & Hb & E)|(pre & j & post & bs & f1 & e & f2 & Hjs & Hb & Hrun & E)];
    rewrite E.
  - rewrite handToConsumer_run.
    destruct (useCreatedAlarms props) as [c|]; cbn;
      rewrite ?filter_app, no_consume_among_factory_calls; cbn.
    + split; [lia|discriminate].
    + split; [lia|reflexivity].
  - cbn. rewrite no_consume_among_factory_calls. cbn. split; [lia|reflexivity].
Qed.

(** When the constructor throws what the factory threw, [consume] has not
    been called. *)
Lemma no_consume_after_refusal props pre j post bs f1 e f2 :
  wfOpt (addDiskSpaceUsageAlarm props) -> wfOpt (addCpuUsageAlarm props) ->
  jobs props = pre ++ j :: post ->
  built (bound props) (usageAlarmFactory (bound props)) pre bs f1 ->
  run (bound props) j f1 = (inl e, f2) ->
  filter isConsume (calls (snd (new props))) = [].
Proof.
  intros Hd Hc Hjs Hb Hrun.
  pose proof (listed_jobs props Hd Hc) as Hl. rewrite Hjs in Hl.
  unfold constructor. rewrite constructorBody_steps. unfold bind. rewrite Hjs.
  rewrite (steps_refused props (bound props) pre j post _ bs f1 e f2); auto.
  cbn. apply no_consume_among_factory_calls.
Qed.

(** *** Keys written twice *)





(** *** A refused alarm *)

(** C9: if the factory builds the alarms of the first entries and throws on
    the next one, the constructor throws the same error at once: that factory
    call is the last call it makes, and the alarms built before it, with
    their annotations, are in the collections of the object. *)
Theorem refusal_keeps_earlier_alarms props pre j post bs f1 e f2 :
  wfOpt (addDiskSpaceUsageAlarm props) -> wfOpt (addCpuUsageAlarm props) ->
  jobs props = pre ++ j :: post ->
  built (bound props) (usageAlarmFactory (bound props)) pre bs f1 ->
  run (bound props) j f1 = (inl e, f2) ->
  exists h,
    new props = (inl e, h) /\
    alarms (this h) = bs /\
    usageAnnotations (this h) = map annotation bs /\
    usageAlarmFactory (this h) = f2 /\
    calls h = map (callOf (bound props)) pre ++ [callOf (bound props) j].
Proof.
  intros Hd Hc Hjs Hb Hrun.
  pose proof (listed_jobs props Hd Hc) as Hl. rewrite Hjs in Hl.
  eexists. split.
  - unfold constructor. rewrite constructorBody_steps. unfold bind.
    rewrite Hjs.
    rewrite (steps_refused props (bound props) pre j post _ bs f1 e f2);
      auto.
  - cbn. rewrite map_app. auto.
Qed.

(** *** What the loops leave alone *)

Lemma keeps_bind {A B} (m : @M UsageAlarmFactory A) (k : A -> @M UsageAlarmFactory B) :
  keeps m -> (forall a, keeps (k a)) -> keeps (bind m k).
Proof.
  intros Hm Hk h. unfold bind. specialize (Hm h).
  destruct (m h) as [[e|a] h1]; [exact Hm|].
  rewrite <- Hm. apply Hk.
Qed.

Lemma keeps_lift {A} (r : Error + A) : keeps (@lift UsageAlarmFactory A r).
Proof. destruct r; intros h; reflexivity. Qed.

Lemma keeps_write (f : @RedshiftClusterMonitoring UsageAlarmFactory -> _) :
  (forall o, layoutFrame (f o) = layoutFrame o) -> keeps (write f).
Proof. intros Hf h. unfold write. simpl. apply Hf. Qed.

Lemma keeps_index {V} (t : option (JsRecord.t V)) k :
  keeps (@index UsageAlarmFactory V t k).
Proof.
  unfold index. destruct t as [r|]; [destruct (JsRecord.get r k)|];
    intros h; reflexivity.
Qed.

Lemma keeps_callFactory (b : @AlarmBuilder UsageAlarmFactory) c m t d :
  keeps (callFactory b c m t d).
Proof.
  unfold callFactory. apply keeps_bind; [intros h; reflexivity|]. intros _.
  apply keeps_bind; [intros h; reflexivity|]. intros f.
  destruct (b f m t d) as [r f'].
  apply keeps_bind; [apply keeps_write; reflexivity|]. intros _.
  apply keeps_lift.
Qed.

Lemma keeps_body role props k : keeps (body role props k).
Proof.
  destruct role; simpl; unfold diskLoopBody, cpuLoopBody;
    (apply keeps_bind; [apply keeps_index|]; intros t;
     apply keeps_bind; [intros h; reflexivity|]; intros m;
     apply keeps_bind; [apply keeps_callFactory|]; intros a;
     apply keeps_bind;
       [apply keeps_write; reflexivity
       |intros _; apply keeps_write; reflexivity]).
Qed.

Lemma keeps_for_in {V} (t : option (JsRecord.t V))
    (b : string -> @M UsageAlarmFactory unit) :
  (forall k, keeps (b k)) -> keeps (for_in t b).
Proof.
  intros Hb. unfold for_in. destruct t as [r|]; [|intros h; reflexivity].
  induction (JsRecord.keys r) as [|k ks IH]; simpl.
  - intros h. reflexivity.
  - apply keeps_bind; auto.
Qed.

Lemma keeps_handToConsumer props :
  keeps (@handToConsumer UsageAlarmFactory props).
Proof.
  intros h. rewrite handToConsumer_run.
  destruct (useCreatedAlarms props); reflexivity.
Qed.

(** However construction ends, the title, the link and the nine metrics of
    the object are the ones the naming strategy, the scope and the metric
    factory gave. *)
Lemma new_keeps_bindings props :
  layoutFrame (this (snd (new props))) = layoutFrame (bound props).
Proof.
  unfold constructor.
  assert (H : keeps (constructorBody addDisk addCpu props)).
  { unfold constructorBody.
    apply keeps_bind;
      [apply keeps_for_in; apply (keeps_body DiskSpaceUsage)|intros _].
    apply keeps_bind;
      [apply keeps_for_in; apply (keeps_body CpuUsage)|intros _].
    apply keeps_handToConsumer. }
  apply H.
Qed.

(** ** The layouts *)

Variables ThirdWidth QuarterWidth HalfQuarterWidth : number.
Variables DefaultSummaryWidgetHeight DefaultGraphWidgetHeight : number.

Local Abbreviation summary :=
  (summaryWidgets ThirdWidth DefaultSummaryWidgetHeight).
Local Abbreviation detailed :=
  (widgets QuarterWidth HalfQuarterWidth DefaultGraphWidgetHeight).

Local Ltac each_widget :=
  repeat (apply Forall_cons); try apply Forall_nil; cbn; repeat split;
  try discriminate; auto.

(** C2: in both layouts the graph titled "CPU/Disk Usage" occurs once and
    its [leftAnnotations] is the whole annotation sequence of the object, in
    the same order; every other widget has no [leftAnnotations] and draws no
    annotation. *)
Theorem usage_widget_carries_all_annotations o :
  Forall (fun w =>
            leftAnnotationsOf w
              = (if isGraphTitled "CPU/Disk Usage" w
                 then Some (usageAnnotations o) else None) /\
            widgetAnnotations w
              = (if isGraphTitled "CPU/Disk Usage" w
                 then usageAnnotations o else []))
    (summary o ++ detailed o) /\
  List.length (filter (isGraphTitled "CPU/Disk Usage") (summary o)) = 1 /\
  List.length (filter (isGraphTitled "CPU/Disk Usage") (detailed o)) = 1.
Proof. split; [each_widget|split; reflexivity]. Qed.

(** C3: [summaryWidgets] returns four widgets and [widgets] returns six,
    whatever the state of the object; so also on the object the constructor
    leaves for any configuration, whatever its two threshold records hold. *)
Theorem layouts_have_fixed_length o props :
  List.length (summaryWidgets ThirdWidth DefaultSummaryWidgetHeight o) = 4 /\
  List.length (widgets QuarterWidth HalfQuarterWidth DefaultGraphWidgetHeight o)
    = 6 /\
  List.length (summaryWidgets ThirdWidth DefaultSummaryWidgetHeight
                 (this (snd (new props)))) = 4 /\
  List.length (widgets QuarterWidth HalfQuarterWidth DefaultGraphWidgetHeight
                 (this (snd (new props)))) = 6.
Proof. repeat split. Qed.

(** With both records empty or absent the constructor calls the factory not
    at all and leaves both collections empty. *)
Lemma no_thresholds_no_alarms props :
  sizeOf (addDiskSpaceUsageAlarm props) = 0 ->
  sizeOf (addCpuUsageAlarm props) = 0 ->
  let h := snd (new props) in
  alarms (this h) = [] /\ usageAnnotations (this h) = [] /\
  filter (fun c => negb (isConsume c)) (calls h) = [] /\
  widgetAnnotations (nth 1 (detailed (this h)) (createTitleWidget (this h))) = [] /\
  List.length (detailed (this h)) = 6.
Proof.
  intros Hd Hc. unfold constructor, constructorBody, sizeOf, entriesOf in *.
  assert (Ed : for_in (addDiskSpaceUsageAlarm props) (diskLoopBody addDisk props)
               = ret tt).
  { destruct (addDiskSpaceUsageAlarm props) as [[|? ?]|]; try discriminate; reflexivity. }
  assert (Ec : for_in (addCpuUsageAlarm props) (cpuLoopBody addCpu props)
               = ret tt).
  { destruct (addCpuUsageAlarm props) as [[|? ?]|]; try discriminate; reflexivity. }
  rewrite Ed, Ec. unfold bind, ret. rewrite handToConsumer_run.
  destruct (useCreatedAlarms props); cbn; auto.
Qed.


(** C5: the layouts read the title, the link, the nine metrics and the
    annotation sequence of the object and nothing else: two objects (or one
    object at two moments) that agree on the metrics and the annotations give
    the same graphs, and the same layouts altogether when they also agree on
    title and link.  The layouts are total functions: they cannot throw. *)
Theorem layouts_depend_on_bindings_and_annotations o1 o2 :
  metricBindings o1 = metricBindings o2 ->
  usageAnnotations o1 = usageAnnotations o2 ->
  tl (summary o1) = tl (summary o2) /\
  tl (detailed o1) = tl (detailed o2) /\
  (title o1 = title o2 -> url o1 = url o2 ->
   summary o1 = summary o2 /\ detailed o1 = detailed o2).
Proof.
  unfold metricBindings. intros [= E1 E2 E3 E4 E5 E6 E7 E8 E9] Ea.
  assert (Htl : tl (summary o1) = tl (summary o2) /\
                tl (detailed o1) = tl (detailed o2)).
  { unfold summaryWidgets, widgets, createCpuAndDiskUsageWidget,
      createConnectionsWidget, createQueryDurationWidget, createLatencyWidget,
      createMaintenanceWidget. simpl.
    rewrite E1, E2, E3, E4, E5, E6, E7, E8, E9, Ea. split; reflexivity. }
  destruct Htl as [Hs Hd]. repeat split; auto.
  - unfold summaryWidgets in *. simpl in *. unfold createTitleWidget. congruence.
  - unfold widgets in *. simpl in *. unfold createTitleWidget. congruence.
Qed.

(** C7: [widgets] returns six widgets; the first four have the content of the
    four of [summaryWidgets] (title, metrics, axis, annotations), the three
    graphs among them at quarter width; the fifth is the latency graph, with
    the read-latency and the write-latency metric on the milliseconds axis at
    half-quarter width; the sixth is the maintenance graph, with the
    maintenance-mode metric alone on the boolean axis at half-quarter
    width. *)
Theorem detailed_layout_shape o :
  exists w1 w2 w3 w4 w5 w6,
    detailed o = [w1; w2; w3; w4; w5; w6] /\
    Forall2 sameContent [w1; w2; w3; w4] (summary o) /\
    map widgetWidth [w1; w2; w3; w4]
      = [None; Some QuarterWidth; Some QuarterWidth; Some QuarterWidth] /\
    (widgetTitle w5 = "Latency" /\
     widgetMetrics w5 = [readLatencyMetric o; writeLatencyMetric o] /\
     widgetAxis w5 = Some TimeAxisMillisFromZero /\
     widgetWidth w5 = Some HalfQuarterWidth) /\
    (widgetTitle w6 = "Maintenance" /\
     widgetMetrics w6 = [maintenanceModeMetric o] /\
     widgetAxis w6 = Some BooleanAxisFromZeroToOne /\
     widgetWidth w6 = Some HalfQuarterWidth).
Proof.
  do 6 eexists. split; [reflexivity|].
  split; [repeat constructor|]. cbn. repeat split.
Qed.


(** ** Further properties of the constructor and the layouts *)

(** X1: however construction ends, the object carries the title of the
    naming strategy, the console link of the cluster identifier and, in each
    of its nine metric fields, the metric of the factory method the
    constructor binds to it; the loops and the consumer change none of
    them. *)
Theorem construction_keeps_bindings props :
  let o := this (snd (new props)) in
  let catalogue := metricFactory props in
  title o = humanReadableName props /\
  url o = clusterUrl (clusterIdentifier props) /\
  connectionsMetric o = metricTotalConnectionCount catalogue /\
  diskSpaceUsageMetric o = metricAverageDiskSpaceUsageInPercent catalogue /\
  cpuUsageMetric o = metricAverageCpuUsageInPercent catalogue /\
  shortQueryDurationMetric o = metricShortQueryDurationP90InMillis catalogue /\
  mediumQueryDurationMetric o = metricMediumQueryDurationP90InMillis catalogue /\
  longQueryDurationMetric o = metricLongQueryDurationP90InMillis catalogue /\
  readLatencyMetric o = metricReadLatencyP90InMillis catalogue /\
  writeLatencyMetric o = metricWriteLatencyP90InMillis catalogue /\
  maintenanceModeMetric o = metricMaintenanceModeEnabled catalogue.
Proof.
  intros o catalogue.
  pose proof (new_keeps_bindings props) as Hframe. fold o in Hframe.
  unfold layoutFrame, metricBindings in Hframe.
  injection Hframe as Ht Hu E1 E2 E3 E4 E5 E6 E7 E8 E9.
  repeat split; assumption.
Qed.

(** X2: on the object the constructor leaves, both layouts begin with the
    same header: family "Redshift Cluster", the title of the naming strategy
    and the console link of the cluster identifier; every widget after it is
    a graph. *)
Theorem header_names_the_cluster props :
  let o := this (snd (new props)) in
  let header :=
    MonitoringHeaderWidget
      {| MonitoringHeaderWidgetProps.family := "Redshift Cluster";
         MonitoringHeaderWidgetProps.title := humanReadableName props;
         MonitoringHeaderWidgetProps.goToLinkUrl :=
           clusterUrl (clusterIdentifier props) |} in
  hd_error (summaryWidgets ThirdWidth DefaultSummaryWidgetHeight o)
    = Some header /\
  hd_error (widgets QuarterWidth HalfQuarterWidth DefaultGraphWidgetHeight o)
    = Some header /\
  forallb isGraph (tl (summaryWidgets ThirdWidth DefaultSummaryWidgetHeight o))
    = true /\
  forallb isGraph
    (tl (widgets QuarterWidth HalfQuarterWidth DefaultGraphWidgetHeight o))
    = true.
Proof.
  intros o header.
  pose proof (new_keeps_bindings props) as Hframe. fold o in Hframe.
  unfold layoutFrame in Hframe. injection Hframe as Ht Hu _.
  unfold header. cbn. unfold createTitleWidget. rewrite Ht, Hu.
  repeat split.
Qed.





Lemma filter_factory_calls o js :
  filter isFactoryCall (map (@callOf UsageAlarmFactory o) js)
    = map (callOf o) js.
Proof.
  induction js as [|j js IH]; cbn [map filter]; [reflexivity|].
  assert (H : isFactoryCall (callOf o j) = true)
    by (unfold callOf; destruct (jobRole j); reflexivity).
  now rewrite H, IH.
Qed.

(** The calls of the jobs of a configuration, written out. *)
Lemma calls_of_jobs props :
  map (callOf (bound props)) (jobs props) =
  map (fun e => CallAddMaxDiskUsagePercentAlarm
                  (metricAverageDiskSpaceUsageInPercent (metricFactory props))
                  (snd e) (fst e))
    (entriesOf (addDiskSpaceUsageAlarm props))
  ++ map (fun e => CallAddMaxCpuUsagePercentAlarm
                     (metricAverageCpuUsageInPercent (metricFactory props))
                     (snd e) (fst e))
       (entriesOf (addCpuUsageAlarm props)).
Proof.
  unfold jobs, jobsOf. rewrite map_app, !map_map. reflexivity.
Qed.

(** X4: whatever the outcome, the constructor has put the entries of the
    two records to the factory in this order: the entries of the disk record
    in enumeration order, to [addMaxDiskUsagePercentAlarm] with the disk-space
    metric of the metric factory, the entry's value and the entry's key; then
    the entries of the CPU record, to [addMaxCpuUsagePercentAlarm] with the
    CPU metric.  The alarms of the object are the factory's answers to the
    first entries of that order, each in the factory state the entry before
    left.  Either these are all the entries, or the factory threw on the
    next entry, that call was the last, and the constructor threw the same
    error. *)
Theorem factory_calls_follow_records props :
  wfOpt (addDiskSpaceUsageAlarm props) -> wfOpt (addCpuUsageAlarm props) ->
  let expected :=
    map (fun e => CallAddMaxDiskUsagePercentAlarm
                    (metricAverageDiskSpaceUsageInPercent (metricFactory props))
                    (snd e) (fst e))
      (entriesOf (addDiskSpaceUsageAlarm props))
    ++ map (fun e => CallAddMaxCpuUsagePercentAlarm
                       (metricAverageCpuUsageInPercent (metricFactory props))
                       (snd e) (fst e))
         (entriesOf (addCpuUsageAlarm props)) in
  exists n f1,
    filter isFactoryCall (calls (snd (new props))) = firstn n expected /\
    built (bound props) (usageAlarmFactory (bound props))
      (firstn (List.length (alarms (this (snd (new props))))) (jobs props))
      (alarms (this (snd (new props)))) f1 /\
    ((n = List.length (alarms (this (snd (new props)))) /\
      n = List.length expected) \/
     (exists j e f2,
        n = S (List.length (alarms (this (snd (new props))))) /\
        nth_error (jobs props)
          (List.length (alarms (this (snd (new props))))) = Some j /\
        run (bound props) j f1 = (inl e, f2) /\
        fst (new props) = inl e)).
Proof.
  intros Hd Hc expected.
  assert (Hexp : expected = map (callOf (bound props)) (jobs props))
    by (symmetry; apply calls_of_jobs).
  rewrite Hexp.
  destruct (constructor_cases props Hd Hc)
    as [(bs & f' & Hb & E)|(pre & j & post & bs & f1 & e & f2 & Hjs & Hb & Hrun & E)];
    rewrite E.
  - assert (Hal : alarms (this (snd (handToConsumer props
                     (commit (mkHeap (bound props) []) bs f'
                        (map (callOf (bound props)) (jobs props)))))) = bs).
    { rewrite handToConsumer_run. destruct (useCreatedAlarms props); reflexivity. }
    rewrite Hal. pose proof (built_length _ _ _ _ _ Hb) as L.
    exists (List.length (jobs props)), f'. split; [|split].
    + rewrite <- (length_map (callOf (bound props)) (jobs props)), firstn_all.
      rewrite handToConsumer_run.
      destruct (useCreatedAlarms props); cbn;
        rewrite ?filter_app, filter_factory_calls; cbn;
        now rewrite ?app_nil_r.
    + rewrite L, firstn_all. exact Hb.
    + left. rewrite length_map. auto.
  - cbn. pose proof (built_length _ _ _ _ _ Hb) as L.
    exists (S (List.length pre)), f1. split; [|split].
    + rewrite filter_factory_calls, Hjs.
      replace (pre ++ j :: post) with ((pre ++ [j]) ++ post)
        by (now rewrite <- app_assoc).
      rewrite (map_app _ (pre ++ [j]) post).
      replace (S (List.length pre))
        with (List.length (map (callOf (bound props)) (pre ++ [j])) + 0)
        by (rewrite length_map, length_app; simpl; lia).
      rewrite firstn_app_2. simpl. now rewrite app_nil_r.
    + rewrite L, Hjs.
      replace (List.length pre) with (List.length pre + 0) by lia.
      rewrite firstn_app_2. simpl. rewrite app_nil_r. exact Hb.
    + right. exists j, e, f2. rewrite L, Hjs. repeat split; auto.
      rewrite nth_error_app2 by lia. now rewrite Nat.sub_diag.
Qed.

(** X6: when the factory builds every alarm and the consumer throws, the
    constructor throws the consumer's error; by then every alarm and every
    annotation is in the object, and the consumer was called once, last, with
    all the alarms. *)
Theorem consumer_error_leaves_all_alarms props c bs f' e :
  wfOpt (addDiskSpaceUsageAlarm props) -> wfOpt (addCpuUsageAlarm props) ->
  useCreatedAlarms props = Some c ->
  built (bound props) (usageAlarmFactory (bound props)) (jobs props) bs f' ->
  consume c bs = inl e ->
  exists h,
    new props = (inl e, h) /\
    alarms (this h) = bs /\
    usageAnnotations (this h) = map annotation bs /\
    calls h = map (callOf (bound props)) (jobs props) ++ [CallConsume bs].
Proof.
  intros Hd Hc Hu Hb He.
  pose proof (listed_jobs props Hd Hc) as Hl.
  eexists. split.
  - unfold constructor. rewrite constructorBody_steps. unfold bind.
    rewrite (steps_built props (bound props) (jobs props) _ bs f'); auto.
    rewrite handToConsumer_run, Hu. cbn. rewrite He. reflexivity.
  - cbn. auto.
Qed.

(** X7: with both records empty or absent the constructor calls the factory
    not at all: the object stays as the straight-line part bound it, with no
    alarm and no annotation; the consumer, if there is one, is called with the
    empty list and decides the outcome. *)
Theorem no_thresholds_only_consumer props :
  sizeOf (addDiskSpaceUsageAlarm props) = 0 ->
  sizeOf (addCpuUsageAlarm props) = 0 ->
  new props =
  match useCreatedAlarms props with
  | Some c => (consume c [], mkHeap (bound props) [CallConsume []])
  | None => (inr tt, mkHeap (bound props) [])
  end /\
  alarms (bound props) = [] /\ usageAnnotations (bound props) = [].
Proof.
  intros Hd Hc. split; [|split; reflexivity].
  unfold constructor, constructorBody, sizeOf, entriesOf in *.
  assert (Ed : for_in (addDiskSpaceUsageAlarm props) (diskLoopBody addDisk props)
               = ret tt).
  { destruct (addDiskSpaceUsageAlarm props) as [[|? ?]|];
      try discriminate; reflexivity. }
  assert (Ec : for_in (addCpuUsageAlarm props) (cpuLoopBody addCpu props)
               = ret tt).
  { destruct (addCpuUsageAlarm props) as [[|? ?]|];
      try discriminate; reflexivity. }
  rewrite Ed, Ec. unfold bind, ret. rewrite handToConsumer_run.
  destruct (useCreatedAlarms props); reflexivity.
Qed.

(** X8: the graphs of [widgets] show each of the nine metrics of the object
    once; the graphs of [summaryWidgets] show the first six of these, in the
    same order, and leave out the two latency metrics and the maintenance
    metric. *)
Theorem every_metric_shown_once o :
  Permutation
    (shownMetrics
       (widgets QuarterWidth HalfQuarterWidth DefaultGraphWidgetHeight o))
    (metricBindings o) /\
  shownMetrics (summaryWidgets ThirdWidth DefaultSummaryWidgetHeight o)
    = firstn 6
        (shownMetrics
           (widgets QuarterWidth HalfQuarterWidth DefaultGraphWidgetHeight o)) /\
  skipn 6
    (shownMetrics
       (widgets QuarterWidth HalfQuarterWidth DefaultGraphWidgetHeight o))
    = [readLatencyMetric o; writeLatencyMetric o; maintenanceModeMetric o].
Proof.
  split; [|split; reflexivity].
  unfold shownMetrics, metricBindings, widgets. cbn.
  apply (Permutation_app_tail
           [shortQueryDurationMetric o; mediumQueryDurationMetric o;
            longQueryDurationMetric o; readLatencyMetric o;
            writeLatencyMetric o; maintenanceModeMetric o]
           (Permutation_rev
              [cpuUsageMetric o; diskSpaceUsageMetric o; connectionsMetric o])).
Qed.

Lemma filter_key_absent {V} (es : list (string * V)) k :
  ~ In k (map fst es) -> filter (fun e => String.eqb (fst e) k) es = [].
Proof.
  induction es as [|[k0 v0] es IH]; simpl; [reflexivity|]. intros H.
  destruct (String.eqb_spec k0 k) as [->|_]; [exfalso; apply H; now left|].
  apply IH. intros I. apply H. now right.
Qed.

Lemma filter_key_at_most_one {V} (es : list (string * V)) k :
  NoDup (map fst es) ->
  List.length (filter (fun e => String.eqb (fst e) k) es) <= 1.
Proof.
  induction es as [|[k0 v0] es IH]; simpl; [lia|].
  intros Hnd. inversion Hnd as [|? ? Hnotin Hnd']; subst.
  destruct (String.eqb_spec k0 k) as [->|_]; [|now apply IH].
  rewrite (filter_key_absent es k Hnotin). simpl. lia.
Qed.

Lemma at_most_one_call_per_key o role props k :
  wfOpt (addDiskSpaceUsageAlarm props) -> wfOpt (addCpuUsageAlarm props) ->
  List.length (filter (isBuildOf role k) (map (@callOf UsageAlarmFactory o) (jobs props)))
    <= 1.
Proof.
  intros Hd Hc. unfold jobs.
  rewrite map_app, filter_app, !filter_calls_jobsOf, length_app, !length_map.
  assert (Nd : NoDup (map fst (entriesOf (addDiskSpaceUsageAlarm props)))).
  { unfold wfOpt, entriesOf in *.
    destruct (addDiskSpaceUsageAlarm props); [exact Hd|constructor]. }
  assert (Nc : NoDup (map fst (entriesOf (addCpuUsageAlarm props)))).
  { unfold wfOpt, entriesOf in *.
    destruct (addCpuUsageAlarm props); [exact Hc|constructor]. }
  destruct role; cbn [thresholdsOf]; rewrite filter_key_none; simpl.
  - rewrite Nat.add_0_r. now apply filter_key_at_most_one.
  - now apply filter_key_at_most_one.
Qed.

(** X9: whatever the outcome, the constructor asks the factory at most once
    for the alarm of a given role and disambiguator: a refused alarm is not
    tried again and no entry is built twice. *)
Theorem no_alarm_requested_twice props role k :
  wfOpt (addDiskSpaceUsageAlarm props) -> wfOpt (addCpuUsageAlarm props) ->
  List.length (filter (isBuildOf role k) (calls (snd (new props)))) <= 1.
Proof.
  intros Hd Hc.
  pose proof (at_most_one_call_per_key (bound props) role props k Hd Hc) as Hall.
  destruct (constructor_cases props Hd Hc)
    as [(bs & f' & Hb & E)|(pre & j & post & bs & f1 & e & f2 & Hjs & Hb & Hrun & E)];
    rewrite E.
  - rewrite handToConsumer_run.
    destruct (useCreatedAlarms props); cbn;
      rewrite ?filter_app, ?filter_isBuildOf_consume, ?app_nil_r; exact Hall.
  - cbn. rewrite Hjs, !map_app, !filter_app, !length_app in Hall.
    rewrite map_app, filter_app, length_app.
    cbn [map filter] in *.
    destruct (isBuildOf role k (callOf (bound props) j)); cbn in *; lia.
Qed.

Lemma disambiguatorsOf_app role cs1 cs2 :
  disambiguatorsOf role (cs1 ++ cs2)
    = disambiguatorsOf role cs1 ++ disambiguatorsOf role cs2.
Proof.
  induction cs1 as [|c cs1 IH]; simpl; [reflexivity|].
  destruct role, c; simpl; now rewrite IH.
Qed.

Lemma disambiguatorsOf_jobsOf o role role' props :
  disambiguatorsOf role (map (@callOf UsageAlarmFactory o) (jobsOf role' props)) =
  match role, role' with
  | DiskSpaceUsage, DiskSpaceUsage | CpuUsage, CpuUsage =>
      map fst (entriesOf (thresholdsOf role' props))
  | _, _ => []
  end.
Proof.
  unfold jobsOf.
  induction (entriesOf (thresholdsOf role' props)) as [|[k v] es IH]; simpl.
  - destruct role, role'; reflexivity.
  - destruct role, role'; cbn; rewrite IH; reflexivity.
Qed.

(** X10: when the record of a role was made from a list of entries and the
    constructor returns, the alarms of the object are the factory's answers
    to the entries of the two records, and the entries of that role were put
    to the factory in the enumeration order of the record: first the
    disambiguators that are array indices, in ascending numeric order, then
    the other disambiguators in the order in which they first came in the
    list. *)
Theorem alarms_follow_enumeration_order props role writes h :
  thresholdsOf role props = Some (JsRecord.of_entries writes) ->
  wfOpt (addDiskSpaceUsageAlarm props) -> wfOpt (addCpuUsageAlarm props) ->
  new props = (inr tt, h) ->
  (exists f',
     built (bound props) (usageAlarmFactory (bound props)) (jobs props)
       (alarms (this h)) f') /\
  map jobDisambiguator (jobsOf role props)
    = JsRecord.keys (JsRecord.of_entries writes) /\
  disambiguatorsOf role (calls h) = JsRecord.keys (JsRecord.of_entries writes) /\
  JsRecord.ordered_keys 0 (disambiguatorsOf role (calls h)) = true /\
  filter JsRecord.is_other_key (disambiguatorsOf role (calls h))
    = JsRecord.first_occurrences []
        (filter JsRecord.is_other_key (map fst writes)).
Proof.
  intros Hw Hd Hc Hnew.
  destruct (new_returned props h Hd Hc Hnew)
    as (bs & f' & Hb & Hal & _ & _ & Hcalls).
  assert (Hks : disambiguatorsOf role (calls h)
                = JsRecord.keys (JsRecord.of_entries writes)).
  { rewrite Hcalls, disambiguatorsOf_app. unfold jobs.
    rewrite map_app, disambiguatorsOf_app, !disambiguatorsOf_jobsOf.
    assert (Hlast : disambiguatorsOf role
                      match useCreatedAlarms props with
                      | Some _ => [CallConsume bs]
                      | None => []
                      end = []).
    { destruct (useCreatedAlarms props), role; reflexivity. }
    rewrite Hlast, app_nil_r.
    destruct role; cbn [thresholdsOf] in *; rewrite Hw; cbn [entriesOf];
      now rewrite ?app_nil_r. }
  split; [exists f'; now rewrite Hal|]. split.
  - unfold jobsOf. rewrite Hw, map_map. reflexivity.
  - rewrite Hks. split; [reflexivity|]. split.
    + apply JsRecordFacts.ordered_of_entries.
    + apply JsRecordFacts.other_keys_of_entries.
Qed.

(** X11: every graph of [summaryWidgets] has the width [ThirdWidth] and the
    height [DefaultSummaryWidgetHeight]; every graph of [widgets] has the
    height [DefaultGraphWidgetHeight]. *)
Theorem graphs_share_dimensions o :
  Forall (fun w => isGraph w = true ->
                   graphSize w = Some (ThirdWidth, DefaultSummaryWidgetHeight))
    (summaryWidgets ThirdWidth DefaultSummaryWidgetHeight o) /\
  Forall (fun w => isGraph w = true ->
                   option_map snd (graphSize w) = Some DefaultGraphWidgetHeight)
    (widgets QuarterWidth HalfQuarterWidth DefaultGraphWidgetHeight o).
Proof.
  split; repeat (apply Forall_cons); try apply Forall_nil; cbn;
    try discriminate; reflexivity.
Qed.

Lemma split_in_first_part {A} (P : A -> Prop) (D C before after : list A)
    (x : A) :
  Forall (fun y => ~ P y) C -> P x ->
  D ++ C = before ++ x :: after ->
  exists rest, D = before ++ x :: rest.
Proof.
  intros HC Hx. revert before.
  induction D as [|d D IH]; intros before E; simpl in E.
  - exfalso. rewrite Forall_forall in HC. apply (HC x); [|exact Hx].
    rewrite E. apply in_app_iff. right. now left.
  - destruct before as [|p before]; simpl in E; injection E as -> E.
    + now exists D.
    + destruct (IH before E) as [rest ->]. now exists rest.
Qed.

Lemma jobsOf_role role props :
  Forall (fun x => jobRole x = role) (jobsOf role props).
Proof.
  unfold jobsOf. apply Forall_forall. intros x I.
  now apply in_map_iff in I as (e & <- & _).
Qed.

Lemma disambiguatorsOf_other_role o js :
  Forall (fun x => jobRole x = DiskSpaceUsage) js ->
  disambiguatorsOf CpuUsage (map (@callOf UsageAlarmFactory o) js) = [].
Proof.
  induction 1 as [|j js Hj _ IH]; simpl; [reflexivity|].
  unfold callOf at 1. now rewrite Hj.
Qed.

(** X12: when the factory refuses an entry of the disk record, the
    constructor throws before the second loop: it has requested no CPU alarm,
    and the object holds fewer alarms than the disk record has entries. *)
Theorem disk_refusal_skips_cpu props pre j post bs f1 e f2 :
  wfOpt (addDiskSpaceUsageAlarm props) -> wfOpt (addCpuUsageAlarm props) ->
  jobs props = pre ++ j :: post ->
  jobRole j = DiskSpaceUsage ->
  built (bound props) (usageAlarmFactory (bound props)) pre bs f1 ->
  run (bound props) j f1 = (inl e, f2) ->
  fst (new props) = inl e /\
  disambiguatorsOf CpuUsage (calls (snd (new props))) = [] /\
  List.length (alarms (this (snd (new props))))
    < sizeOf (addDiskSpaceUsageAlarm props).
Proof.
  intros Hd Hc Hjs Hrole Hb Hrun.
  pose proof (listed_jobs props Hd Hc) as Hl. rewrite Hjs in Hl.
  assert (Hpre : exists post', jobsOf DiskSpaceUsage props = pre ++ j :: post').
  { apply (split_in_first_part (fun x => jobRole x = DiskSpaceUsage)
             _ (jobsOf CpuUsage props) pre post j); auto.
    eapply Forall_impl; [|apply (jobsOf_role CpuUsage props)].
    intros x -> H. discriminate. }
  destruct Hpre as [post' Hdisk].
  assert (Hall : Forall (fun x => jobRole x = DiskSpaceUsage) (pre ++ [j])).
  { pose proof (jobsOf_role DiskSpaceUsage props) as H. rewrite Hdisk in H.
    apply Forall_app in H as [H1 H2]. apply Forall_app. split; [exact H1|].
    inversion H2; subst. now constructor. }
  unfold constructor. rewrite constructorBody_steps. unfold bind. rewrite Hjs.
  rewrite (steps_refused props (bound props) pre j post _ bs f1 e f2); auto.
  cbn. split; [reflexivity|]. split.
  - now apply disambiguatorsOf_other_role.
  - rewrite (built_length _ _ _ _ _ Hb).
    pose proof (length_jobsOf DiskSpaceUsage props) as L.
    cbn [thresholdsOf] in L. rewrite <- L, Hdisk, length_app.
    simpl. lia.
Qed.

End Properties.

(** ** The whole constructor: where an error can come from *)

(** What the straight-line part throws is what one of its collaborators
    answered. *)
Lemma straightLine_throws {UsageAlarmFactory : Type}
    (scope : Throwing.MonitoringScope UsageAlarmFactory) props e :
  straightLine scope props = inl e -> ThrownInStraightLine scope props e.
Proof.
  unfold straightLine, bindE. intros H.
  destruct (Throwing.superMonitoring scope props) as [e0|[]] eqn:E1;
    [injection H as <-; now apply ThrownBySuper|].
  destruct (Throwing.newMonitoringNamingStrategy scope props) as [e0|ns] eqn:E2;
    [injection H as <-; now apply ThrownByNewNamingStrategy|].
  destruct (Throwing.resolveHumanReadableName ns) as [e0|title] eqn:E3;
    [injection H as <-; now apply (ThrownByHumanReadableName _ _ _ ns)|].
  destruct (Throwing.getRedshiftClusterUrl scope (clusterIdentifier props))
    as [e0|url] eqn:E4;
    [injection H as <-; now apply ThrownByClusterUrl|].
  destruct (Throwing.resolveAlarmFriendlyName ns) as [e0|name] eqn:E5;
    [injection H as <-; now apply (ThrownByAlarmFriendlyName _ _ _ ns)|].
  destruct (Throwing.createAlarmFactory scope name) as [e0|f] eqn:E6;
    [injection H as <-; now apply (ThrownByCreateAlarmFactory _ _ _ ns name)|].
  destruct (Throwing.newRedshiftClusterMetricFactory scope props)
    as [e0|mf] eqn:E7;
    [injection H as <-; now apply ThrownByNewMetricFactory|].
  apply (ThrownByMetricMethod _ _ _ mf E7). simpl.
  destruct (Throwing.metricTotalConnectionCount mf) as [e0|?];
    [injection H as <-; tauto|].
  destruct (Throwing.metricAverageDiskSpaceUsageInPercent mf) as [e0|?];
    [injection H as <-; tauto|].
  destruct (Throwing.metricAverageCpuUsageInPercent mf) as [e0|?];
    [injection H as <-; tauto|].
  destruct (Throwing.metricShortQueryDurationP90InMillis mf) as [e0|?];
    [injection H as <-; tauto|].
  destruct (Throwing.metricMediumQueryDurationP90InMillis mf) as [e0|?];
    [injection H as <-; tauto|].
  destruct (Throwing.metricLongQueryDurationP90InMillis mf) as [e0|?];
    [injection H as <-; tauto|].
  destruct (Throwing.metricReadLatencyP90InMillis mf) as [e0|?];
    [injection H as <-; tauto|].
  destruct (Throwing.metricWriteLatencyP90InMillis mf) as [e0|?];
    [injection H as <-; tauto|].
  destruct (Throwing.metricMaintenanceModeEnabled mf) as [e0|?];
    [injection H as <-; tauto|discriminate].
Qed.

(** X5: the constructor raises no error of its own.  When it throws, one
    of three things happened: a collaborator of the straight-line part (the
    call of [super], the naming strategy, the console link, the alarm
    factory, the metric factory or one of its nine methods) threw that error;
    or the straight-line part completed and the alarm factory threw it on an
    entry after building the entries before it; or every alarm was built and
    the consumer threw it on the alarm collection. *)
Theorem throws_only_what_collaborators_throw {UsageAlarmFactory : Type}
    (scope : Throwing.MonitoringScope UsageAlarmFactory)
    (addDisk addCpu : @AlarmBuilder UsageAlarmFactory) props e :
  wfOpt (addDiskSpaceUsageAlarm props) -> wfOpt (addCpuUsageAlarm props) ->
  throws (newRedshiftClusterMonitoring scope addDisk addCpu props) e ->
  ThrownInStraightLine scope props e \/
  (exists b pre j post bs f1 f2,
     straightLine scope props = inr b /\
     jobs props = pre ++ j :: post /\
     Built addDisk addCpu (objectOn b props) (boundUsageAlarmFactory b)
       pre bs f1 /\
     runJob addDisk addCpu (objectOn b props) j f1 = (inl e, f2)) \/
  (exists b c bs f',
     straightLine scope props = inr b /\
     useCreatedAlarms props = Some c /\
     Built addDisk addCpu (objectOn b props) (boundUsageAlarmFactory b)
       (jobs props) bs f' /\
     consume c bs = inl e).
Proof.
  intros Hd Hc Hthrows. unfold newRedshiftClusterMonitoring in Hthrows.
  destruct (straightLine scope props) as [e0|b] eqn:Hsl.
  - left. apply straightLine_throws.
    destruct Hthrows as [H|[h H]]; [now injection H as <-|discriminate].
  - right. destruct Hthrows as [H|[h H]]; [discriminate|].
    injection H as Hnew. unfold constructorOn in Hnew.
    destruct (constructor_cases addDisk addCpu (fun _ => boundTitle b)
                (fun _ => boundAlarmFriendlyName b) (fun _ => boundUrl b)
                (fun _ => boundUsageAlarmFactory b) (fun _ => boundMetrics b)
                props Hd Hc)
      as [(bs & f' & Hb & E)|(pre & j & post & bs & f1 & e' & f2 & Hjs & Hb & Hrun & E)];
      rewrite E in Hnew.
    + right. rewrite handToConsumer_run in Hnew.
      destruct (useCreatedAlarms props) as [c|]; [|discriminate].
      exists b, c, bs, f'. cbn in Hnew. injection Hnew as He _.
      repeat split; auto.
    + left. injection Hnew as <- _.
      exists b, pre, j, post, bs, f1, f2. repeat split; auto.
Qed.

(** ** The statements at the sample configuration *)

Example sample_new :
  let '(r, h) := Sample.new Sample.props in
  r = inr tt /\
  map value (usageAnnotations (this h)) = [80%Z; 90%Z] /\
  map alarmName (alarms (this h)) = ["Disk-warn"; "CPU-crit"] /\
  List.length (calls h) = 3.
Proof. vm_compute. repeat split. Qed.

Example sample_refused :
  let '(r, h) := Sample.new Sample.propsRefused in
  r = inl "limit out of range" /\
  map alarmName (alarms (this h)) = ["Disk-warn"] /\
  List.length (calls h) = 2.
Proof. vm_compute. repeat split. Qed.

(** The example of the spec: one disk threshold [warn], one CPU threshold
    [crit]; the usage graph of both layouts carries [warn], then [crit]. *)
Example sample_usage_widget :
  map (fun w => map label (widgetAnnotations w))
    (filter (isGraphTitled "CPU/Disk Usage")
       (summaryWidgets 8%Z 6%Z (this (Sample.finished Sample.props))
        ++ widgets 6%Z 3%Z 5%Z (this (Sample.finished Sample.props))))
  = [[Some "warn"; Some "crit"]; [Some "warn"; Some "crit"]].
Proof. reflexivity. Qed.

(** The key written twice is built once, with the threshold written last. *)
Example sample_twice :
  map (fun a => (alarmName a, limit (alarmThreshold a)))
    (alarms (this (snd (Sample.newAlways Sample.propsTwice))))
  = [("Disk-warn", 80%Z); ("Disk-crit", 90%Z); ("CPU-crit", 90%Z)].
Proof. reflexivity. Qed.

Local Ltac distinct_keys :=
  cbv; repeat (apply NoDup_cons; [intros H; simpl in H; intuition discriminate|]);
  apply NoDup_nil.

(** The sample configuration returns, with one annotation per threshold,
    disk first. *)
Lemma annotations_disk_then_cpu_witness :
  wfOpt (addDiskSpaceUsageAlarm Sample.props) /\
  wfOpt (addCpuUsageAlarm Sample.props) /\
  Sample.new Sample.props = (inr tt, Sample.finished Sample.props) /\
  exists diskAlarms cpuAlarms fm,
    Built (Sample.build "Disk-") (Sample.build "CPU-") (Sample.bound Sample.props)
      (usageAlarmFactory (Sample.bound Sample.props))
      (jobsOf DiskSpaceUsage Sample.props) diskAlarms fm /\
    Built (Sample.build "Disk-") (Sample.build "CPU-") (Sample.bound Sample.props)
      fm (jobsOf CpuUsage Sample.props) cpuAlarms
      (usageAlarmFactory (this (Sample.finished Sample.props))) /\
    usageAnnotations (this (Sample.finished Sample.props))
      = map annotation diskAlarms ++ map annotation cpuAlarms /\
    List.length diskAlarms = sizeOf (addDiskSpaceUsageAlarm Sample.props) /\
    List.length cpuAlarms = sizeOf (addCpuUsageAlarm Sample.props) /\
    List.length (usageAnnotations (this (Sample.finished Sample.props)))
      = sizeOf (addDiskSpaceUsageAlarm Sample.props)
        + sizeOf (addCpuUsageAlarm Sample.props).
Proof.
  assert (Hd : wfOpt (addDiskSpaceUsageAlarm Sample.props)) by distinct_keys.
  assert (Hc : wfOpt (addCpuUsageAlarm Sample.props)) by distinct_keys.
  assert (Hnew : Sample.new Sample.props = (inr tt, Sample.finished Sample.props))
    by reflexivity.
  repeat split; try assumption.
  exact (annotations_disk_then_cpu (Sample.build "Disk-") (Sample.build "CPU-")
           Sample.name Sample.name Sample.consoleUrl Sample.freshFactory
           Sample.catalogue Sample.props (Sample.finished Sample.props)
           Hd Hc Hnew).
Defined.


(** Emptying the alarm list and using the factory again changes neither
    layout. *)
Lemma layouts_depend_on_bindings_and_annotations_witness :
  metricBindings (this (Sample.finished Sample.props))
    = metricBindings Sample.finishedLater /\
  usageAnnotations (this (Sample.finished Sample.props))
    = usageAnnotations Sample.finishedLater /\
  alarms (this (Sample.finished Sample.props)) <> alarms Sample.finishedLater /\
  summaryWidgets 8%Z 6%Z (this (Sample.finished Sample.props))
    = summaryWidgets 8%Z 6%Z Sample.finishedLater /\
  widgets 6%Z 3%Z 5%Z (this (Sample.finished Sample.props))
    = widgets 6%Z 3%Z 5%Z Sample.finishedLater.
Proof.
  assert (Hm : metricBindings (this (Sample.finished Sample.props))
               = metricBindings Sample.finishedLater) by reflexivity.
  assert (Ha : usageAnnotations (this (Sample.finished Sample.props))
               = usageAnnotations Sample.finishedLater) by reflexivity.
  destruct (layouts_depend_on_bindings_and_annotations 8%Z 6%Z 3%Z 6%Z 5%Z
              (this (Sample.finished Sample.props)) Sample.finishedLater Hm Ha)
    as (_ & _ & Hall).
  repeat split; try assumption; try (apply Hall; reflexivity).
  vm_compute. discriminate.
Defined.

(** The factory refuses the limit 120 of [bad]: [warn] has been built and
    stays, [crit] is never reached. *)
Lemma refusal_keeps_earlier_alarms_witness :
  jobs Sample.propsRefused
    = Sample.jobsBuilt ++ Sample.jobRefused :: Sample.jobsNotReached /\
  exists h,
    Sample.new Sample.propsRefused = (inl "limit out of range", h) /\
    alarms (this h) = [Sample.alarmFor "Disk-" "warn" (Sample.threshold 70%Z)] /\
    usageAnnotations (this h)
      = map annotation [Sample.alarmFor "Disk-" "warn" (Sample.threshold 70%Z)] /\
    usageAlarmFactory (this h) = ["Disk-warn"] /\
    calls h = map (callOf (Sample.bound Sample.propsRefused)) Sample.jobsBuilt
              ++ [callOf (Sample.bound Sample.propsRefused) Sample.jobRefused].
Proof.
  assert (Hjobs : jobs Sample.propsRefused
                  = Sample.jobsBuilt ++ Sample.jobRefused :: Sample.jobsNotReached)
    by reflexivity.
  split; [exact Hjobs|].
  apply (refusal_keeps_earlier_alarms (Sample.build "Disk-") (Sample.build "CPU-")
           Sample.name Sample.name Sample.consoleUrl Sample.freshFactory
           Sample.catalogue Sample.propsRefused Sample.jobsBuilt
           Sample.jobRefused Sample.jobsNotReached
           [Sample.alarmFor "Disk-" "warn" (Sample.threshold 70%Z)]
           ["Disk-warn"] "limit out of range" ["Disk-warn"]).
  - distinct_keys.
  - distinct_keys.
  - exact Hjobs.
  - eapply Built_cons; [reflexivity|apply Built_nil].
  - reflexivity.
Defined.

(** Both alarms are built, then the consumer refuses them. *)
Lemma consumer_error_leaves_all_alarms_witness :
  exists h,
    Sample.new Sample.propsRejected = (inl "consumer refused", h) /\
    alarms (this h)
      = [Sample.alarmFor "Disk-" "warn" (Sample.threshold 80%Z);
         Sample.alarmFor "CPU-" "crit" (Sample.threshold 90%Z)] /\
    usageAnnotations (this h)
      = map annotation
          [Sample.alarmFor "Disk-" "warn" (Sample.threshold 80%Z);
           Sample.alarmFor "CPU-" "crit" (Sample.threshold 90%Z)] /\
    calls h
      = map (callOf (Sample.bound Sample.propsRejected))
          (jobs Sample.propsRejected)
        ++ [CallConsume
              [Sample.alarmFor "Disk-" "warn" (Sample.threshold 80%Z);
               Sample.alarmFor "CPU-" "crit" (Sample.threshold 90%Z)]].
Proof.
  apply (consumer_error_leaves_all_alarms (Sample.build "Disk-")
           (Sample.build "CPU-") Sample.name Sample.name Sample.consoleUrl
           Sample.freshFactory Sample.catalogue Sample.propsRejected
           Sample.rejecting
           [Sample.alarmFor "Disk-" "warn" (Sample.threshold 80%Z);
            Sample.alarmFor "CPU-" "crit" (Sample.threshold 90%Z)]
           ["CPU-crit"; "Disk-warn"] "consumer refused").
  - distinct_keys.
  - distinct_keys.
  - reflexivity.
  - eapply Built_cons; [reflexivity|].
    eapply Built_cons; [reflexivity|]. apply Built_nil.
  - reflexivity.
Defined.

(** No disk record and an empty CPU record: the consumer gets the empty
    list and the constructor returns. *)
Lemma no_thresholds_only_consumer_witness :
  sizeOf (addDiskSpaceUsageAlarm Sample.propsBare) = 0 /\
  sizeOf (addCpuUsageAlarm Sample.propsBare) = 0 /\
  Sample.new Sample.propsBare
    = (consume Sample.accepting [],
       mkHeap (Sample.bound Sample.propsBare) [CallConsume []]) /\
  alarms (Sample.bound Sample.propsBare) = [] /\
  usageAnnotations (Sample.bound Sample.propsBare) = [].
Proof.
  assert (Hd : sizeOf (addDiskSpaceUsageAlarm Sample.propsBare) = 0)
    by reflexivity.
  assert (Hc : sizeOf (addCpuUsageAlarm Sample.propsBare) = 0) by reflexivity.
  split; [exact Hd|]. split; [exact Hc|].
  exact (no_thresholds_only_consumer (Sample.build "Disk-")
           (Sample.build "CPU-") Sample.name Sample.name Sample.consoleUrl
           Sample.freshFactory Sample.catalogue Sample.propsBare Hd Hc).
Defined.

(** The refused alarm [bad] was asked for once. *)
Lemma no_alarm_requested_twice_witness :
  wfOpt (addDiskSpaceUsageAlarm Sample.propsRefused) /\
  wfOpt (addCpuUsageAlarm Sample.propsRefused) /\
  List.length
    (filter (isBuildOf DiskSpaceUsage "bad")
       (calls (Sample.finished Sample.propsRefused))) <= 1.
Proof.
  assert (Hd : wfOpt (addDiskSpaceUsageAlarm Sample.propsRefused))
    by distinct_keys.
  assert (Hc : wfOpt (addCpuUsageAlarm Sample.propsRefused)) by distinct_keys.
  split; [exact Hd|]. split; [exact Hc|].
  exact (no_alarm_requested_twice (Sample.build "Disk-") (Sample.build "CPU-")
           Sample.name Sample.name Sample.consoleUrl Sample.freshFactory
           Sample.catalogue Sample.propsRefused DiskSpaceUsage "bad" Hd Hc).
Defined.

(** The factory refuses the second disk threshold: no CPU alarm is asked
    for, one alarm of three is in the object. *)
Lemma disk_refusal_skips_cpu_witness :
  jobs Sample.propsRefused
    = Sample.jobsBuilt ++ Sample.jobRefused :: Sample.jobsNotReached /\
  jobRole Sample.jobRefused = DiskSpaceUsage /\
  fst (Sample.new Sample.propsRefused) = inl "limit out of range" /\
  disambiguatorsOf CpuUsage (calls (snd (Sample.new Sample.propsRefused))) = [] /\
  List.length (alarms (this (snd (Sample.new Sample.propsRefused))))
    < sizeOf (addDiskSpaceUsageAlarm Sample.propsRefused).
Proof.
  assert (Hjobs : jobs Sample.propsRefused
                  = Sample.jobsBuilt ++ Sample.jobRefused :: Sample.jobsNotReached)
    by reflexivity.
  split; [exact Hjobs|]. split; [reflexivity|].
  apply (disk_refusal_skips_cpu (Sample.build "Disk-") (Sample.build "CPU-")
           Sample.name Sample.name Sample.consoleUrl Sample.freshFactory
           Sample.catalogue Sample.propsRefused Sample.jobsBuilt
           Sample.jobRefused Sample.jobsNotReached
           [Sample.alarmFor "Disk-" "warn" (Sample.threshold 70%Z)]
           ["Disk-warn"] "limit out of range" ["Disk-warn"]).
  - distinct_keys.
  - distinct_keys.
  - exact Hjobs.
  - reflexivity.
  - eapply Built_cons; [reflexivity|apply Built_nil].
  - reflexivity.
Defined.

(** The run of the constructor, and the object before the loops, on the
    sample collaborators. *)
Local Abbreviation sampleRun :=
  (constructor (Sample.build "Disk-") (Sample.build "CPU-")
     Sample.name Sample.name Sample.consoleUrl Sample.freshFactory
     Sample.catalogue).
Local Abbreviation sampleBound :=
  (fieldsBound Sample.name Sample.name Sample.consoleUrl Sample.freshFactory
     Sample.catalogue).
Local Abbreviation sampleRunAlways :=
  (constructor (Sample.buildAlways "Disk-") (Sample.buildAlways "CPU-")
     Sample.name Sample.name Sample.consoleUrl Sample.freshFactory
     Sample.catalogue).

(** The consumer of the sample configuration is applied to both alarms,
    last, once, and accepts them. *)
Lemma consumer_called_once_at_end_witness :
  wfOpt (addDiskSpaceUsageAlarm Sample.props) /\
  wfOpt (addCpuUsageAlarm Sample.props) /\
  sampleRun Sample.props = (inr tt, snd (sampleRun Sample.props)) /\
  consume Sample.accepting (alarms (this (snd (sampleRun Sample.props))))
    = inr tt /\
  fst (sampleRun Sample.props)
    = consume Sample.accepting (alarms (this (snd (sampleRun Sample.props)))) /\
  calls (snd (sampleRun Sample.props))
    = map (callOf (sampleBound Sample.props)) (jobs Sample.props)
      ++ [CallConsume (alarms (this (snd (sampleRun Sample.props))))] /\
  filter isConsume (calls (snd (sampleRun Sample.props)))
    = [CallConsume (alarms (this (snd (sampleRun Sample.props))))] /\
  List.length (alarms (this (snd (sampleRun Sample.props))))
    = sizeOf (addDiskSpaceUsageAlarm Sample.props)
      + sizeOf (addCpuUsageAlarm Sample.props) /\
  exists f',
    Built (Sample.build "Disk-") (Sample.build "CPU-")
      (sampleBound Sample.props)
      (usageAlarmFactory (sampleBound Sample.props)) (jobs Sample.props)
      (alarms (this (snd (sampleRun Sample.props)))) f'.
Proof.
  assert (Hd : wfOpt (addDiskSpaceUsageAlarm Sample.props)) by distinct_keys.
  assert (Hc : wfOpt (addCpuUsageAlarm Sample.props)) by distinct_keys.
  assert (Hfst : fst (sampleRun Sample.props) = inr tt) by reflexivity.
  assert (Hnew : sampleRun Sample.props
                 = (inr tt, snd (sampleRun Sample.props)))
    by (rewrite <- Hfst; apply surjective_pairing).
  split; [exact Hd|]. split; [exact Hc|]. split; [exact Hnew|].
  exact (consumer_called_once_at_end (Sample.build "Disk-")
           (Sample.build "CPU-") Sample.name Sample.name Sample.consoleUrl
           Sample.freshFactory Sample.catalogue Sample.props
           (snd (sampleRun Sample.props)) Hd Hc Hnew).
Defined.


(** The refused configuration: one alarm is in the object, the factory's
    answer to [warn]; the second call was the last, the factory threw on
    [bad] and the constructor threw the same. *)
Lemma factory_calls_follow_records_witness :
  wfOpt (addDiskSpaceUsageAlarm Sample.propsRefused) /\
  wfOpt (addCpuUsageAlarm Sample.propsRefused) /\
  exists n f1,
    filter isFactoryCall (calls (snd (sampleRun Sample.propsRefused)))
      = firstn n
          (map (fun e => CallAddMaxDiskUsagePercentAlarm
                           (metricAverageDiskSpaceUsageInPercent
                              (Sample.catalogue Sample.propsRefused))
                           (snd e) (fst e))
             (entriesOf (addDiskSpaceUsageAlarm Sample.propsRefused))
           ++ map (fun e => CallAddMaxCpuUsagePercentAlarm
                              (metricAverageCpuUsageInPercent
                                 (Sample.catalogue Sample.propsRefused))
                              (snd e) (fst e))
                (entriesOf (addCpuUsageAlarm Sample.propsRefused))) /\
    Built (Sample.build "Disk-") (Sample.build "CPU-")
      (sampleBound Sample.propsRefused)
      (usageAlarmFactory (sampleBound Sample.propsRefused))
      (firstn
         (List.length (alarms (this (snd (sampleRun Sample.propsRefused)))))
         (jobs Sample.propsRefused))
      (alarms (this (snd (sampleRun Sample.propsRefused)))) f1 /\
    ((n = List.length (alarms (this (snd (sampleRun Sample.propsRefused)))) /\
      n = List.length
            (map (fun e => CallAddMaxDiskUsagePercentAlarm
                             (metricAverageDiskSpaceUsageInPercent
                                (Sample.catalogue Sample.propsRefused))
                             (snd e) (fst e))
               (entriesOf (addDiskSpaceUsageAlarm Sample.propsRefused))
             ++ map (fun e => CallAddMaxCpuUsagePercentAlarm
                                (metricAverageCpuUsageInPercent
                                   (Sample.catalogue Sample.propsRefused))
                                (snd e) (fst e))
                  (entriesOf (addCpuUsageAlarm Sample.propsRefused)))) \/
     (exists j e f2,
        n = S (List.length
                 (alarms (this (snd (sampleRun Sample.propsRefused))))) /\
        nth_error (jobs Sample.propsRefused)
          (List.length (alarms (this (snd (sampleRun Sample.propsRefused)))))
          = Some j /\
        runJob (Sample.build "Disk-") (Sample.build "CPU-")
          (sampleBound Sample.propsRefused) j f1 = (inl e, f2) /\
        fst (sampleRun Sample.propsRefused) = inl e)).
Proof.
  assert (Hd : wfOpt (addDiskSpaceUsageAlarm Sample.propsRefused))
    by distinct_keys.
  assert (Hc : wfOpt (addCpuUsageAlarm Sample.propsRefused)) by distinct_keys.
  split; [exact Hd|]. split; [exact Hc|].
  exact (factory_calls_follow_records (Sample.build "Disk-")
           (Sample.build "CPU-") Sample.name Sample.name Sample.consoleUrl
           Sample.freshFactory Sample.catalogue Sample.propsRefused Hd Hc).
Defined.

(** A metric factory without a write-latency metric: the constructor throws
    in its straight-line part. *)
Example sample_no_write_latency :
  newRedshiftClusterMonitoring Sample.scopeNoWriteLatency
    (Sample.build "Disk-") (Sample.build "CPU-") Sample.props
  = inl "no such metric".
Proof. reflexivity. Qed.

(** With the scope that answers, the whole constructor is the run on the
    sample collaborators. *)
Example sample_whole_constructor :
  newRedshiftClusterMonitoring Sample.scope
    (Sample.build "Disk-") (Sample.build "CPU-") Sample.propsRefused
  = inr (sampleRun Sample.propsRefused).
Proof. reflexivity. Qed.

(** The refused configuration throws what the factory threw on [bad]; the
    scope without write latency throws what the metric factory threw. *)
Lemma throws_only_what_collaborators_throw_witness :
  throws
    (newRedshiftClusterMonitoring Sample.scope (Sample.build "Disk-")
       (Sample.build "CPU-") Sample.propsRefused)
    "limit out of range" /\
  (ThrownInStraightLine Sample.scope Sample.propsRefused "limit out of range" \/
   (exists b pre j post bs f1 f2,
      straightLine Sample.scope Sample.propsRefused = inr b /\
      jobs Sample.propsRefused = pre ++ j :: post /\
      Built (Sample.build "Disk-") (Sample.build "CPU-")
        (objectOn b Sample.propsRefused) (boundUsageAlarmFactory b) pre bs f1 /\
      runJob (Sample.build "Disk-") (Sample.build "CPU-")
        (objectOn b Sample.propsRefused) j f1
        = (inl "limit out of range", f2)) \/
   (exists b c bs f',
      straightLine Sample.scope Sample.propsRefused = inr b /\
      useCreatedAlarms Sample.propsRefused = Some c /\
      Built (Sample.build "Disk-") (Sample.build "CPU-")
        (objectOn b Sample.propsRefused) (boundUsageAlarmFactory b)
        (jobs Sample.propsRefused) bs f' /\
      consume c bs = inl "limit out of range")).
Proof.
  assert (Hthrows : throws
            (newRedshiftClusterMonitoring Sample.scope (Sample.build "Disk-")
               (Sample.build "CPU-") Sample.propsRefused)
            "limit out of range").
  { right. eexists. reflexivity. }
  split; [exact Hthrows|].
  apply (throws_only_what_collaborators_throw Sample.scope
           (Sample.build "Disk-") (Sample.build "CPU-") Sample.propsRefused
           "limit out of range").
  - distinct_keys.
  - distinct_keys.
  - exact Hthrows.
Defined.

(** Given in the order [warn], [10], [crit], [2], the disk entries are put
    to the factory in the order [2], [10], [warn], [crit]. *)
Lemma alarms_follow_enumeration_order_witness :
  fst (sampleRunAlways Sample.propsMixed) = inr tt /\
  (exists f',
     Built (Sample.buildAlways "Disk-") (Sample.buildAlways "CPU-")
       (sampleBound Sample.propsMixed)
       (usageAlarmFactory (sampleBound Sample.propsMixed))
       (jobs Sample.propsMixed)
       (alarms (this (snd (sampleRunAlways Sample.propsMixed)))) f') /\
  map jobDisambiguator (jobsOf DiskSpaceUsage Sample.propsMixed)
    = ["2"; "10"; "warn"; "crit"] /\
  disambiguatorsOf DiskSpaceUsage
    (calls (snd (sampleRunAlways Sample.propsMixed)))
    = ["2"; "10"; "warn"; "crit"] /\
  filter JsRecord.is_other_key
    (disambiguatorsOf DiskSpaceUsage
       (calls (snd (sampleRunAlways Sample.propsMixed))))
    = JsRecord.first_occurrences []
        (filter JsRecord.is_other_key (map fst Sample.diskWritesMixed)).
Proof.
  assert (Hfst : fst (sampleRunAlways Sample.propsMixed) = inr tt)
    by reflexivity.
  assert (Hnew : sampleRunAlways Sample.propsMixed
                 = (inr tt, snd (sampleRunAlways Sample.propsMixed)))
    by (rewrite <- Hfst; apply surjective_pairing).
  assert (Hd : wfOpt (addDiskSpaceUsageAlarm Sample.propsMixed))
    by distinct_keys.
  split; [exact Hfst|].
  destruct (alarms_follow_enumeration_order (Sample.buildAlways "Disk-")
              (Sample.buildAlways "CPU-") Sample.name Sample.name
              Sample.consoleUrl Sample.freshFactory Sample.catalogue
              Sample.propsMixed DiskSpaceUsage Sample.diskWritesMixed
              (snd (sampleRunAlways Sample.propsMixed)) eq_refl Hd I Hnew)
    as (Hbuilt & Hjobs & Hkeys & _ & Hother).
  split; [exact Hbuilt|]. split; [exact Hjobs|].
  split; [exact Hkeys|exact Hother].
Defined.
